(** * go-hetzner-dns: a shallow embedding of [hetzner.go]

    The client of the Hetzner DNS API is embedded as programs of a small
    effect tree [io]: each call of [client.Do] becomes a [Do] node that
    waits for the transport's answer, each [os.ReadFile] a [ReadFile] node.
    A world ([world]) answers these effects, and [run] collects the
    requests a program sends, in order, with its final result.

    Library code the repository relies on but does not contain
    ([http.NewRequest]'s validation, [encoding/json] and the Unicode part of
    [strings.EqualFold]) is a field of the record [GoLib]; all theorems
    hold for every such library. *)

From Stdlib Require Import String Ascii List ZArith NArith Bool Lia.
Import ListNotations.
Open Scope list_scope.
Open Scope string_scope.

(** ** Go values *)

(** Go [error] values as the file builds them: [errors.New] and
    [fmt.Errorf] without [%w] give a plain text error, [fmt.Errorf] with a
    trailing [": %w"] wraps the inner error behind a prefix, and errors of
    the standard library (transport, decoding, reading) are opaque. *)
Inductive goerr : Type :=
  | EText (msg : string)
  | EWrap (prefix : string) (inner : goerr)
  | ELib (msg : string).

(** [err.Error()] *)
Fixpoint Error (e : goerr) : string :=
  match e with
  | EText m => m
  | EWrap p inner => p ++ Error inner
  | ELib m => m
  end.

(** [%d] on a Go [int]. *)
Fixpoint utoa_aux (fuel : nat) (n : N) (acc : string) : string :=
  match fuel with
  | O => acc
  | S f =>
      let acc' := String (ascii_of_N (48 + N.modulo n 10)) acc in
      if (n <? 10)%N then acc' else utoa_aux f (N.div n 10) acc'
  end.

Definition utoa (n : N) : string := utoa_aux (S (N.size_nat n)) n "".

Definition itoa (z : Z) : string :=
  if (z <? 0)%Z then "-" ++ utoa (Z.to_N (- z)) else utoa (Z.to_N z).

(** ** Data model (the structs of hetzner.go) *)

Record Hetzner := mkHetzner {
  APIKey : string;
  APIBaseUrl : string
}.

Record Zone := mkZone {
  zone_ID : string;
  zone_Name : string
}.

Record RecordResponse := mkRecordResponse {
  rr_ID : string;
  rr_Type : string;
  rr_Name : string;
  rr_Value : string;
  rr_ZoneID : string;
  rr_TTL : Z;
  rr_Created : string;
  rr_Modified : string
}.

Record RecordUpdateRequest := mkRecordUpdateRequest {
  ru_ID : string;
  ru_ZoneID : string;
  ru_Type : string;
  ru_Name : string;
  ru_Value : string
}.

Record BulkRecordUpdateRequest := mkBulkRecordUpdateRequest {
  bulk_Records : list RecordUpdateRequest
}.

(** [time.Time] is kept as an instant in nanoseconds; its zero value is 0. *)
Record PrimaryServer := mkPrimaryServer {
  ps_Port : Z;
  ps_ID : string;
  ps_Created : Z;
  ps_Modified : Z;
  ps_ZoneID : string;
  ps_Address : string
}.

Record PrimaryServers := mkPrimaryServers {
  primary_servers : list PrimaryServer
}.

Definition zero_RecordResponse : RecordResponse :=
  mkRecordResponse "" "" "" "" "" 0 "" "".
Definition zero_PrimaryServer : PrimaryServer := mkPrimaryServer 0 "" 0 0 "" "".
Definition zero_PrimaryServers : PrimaryServers := mkPrimaryServers [].

(** ** net/http *)

(** [textproto.CanonicalMIMEHeaderKey], for keys made of token bytes:
    upper case at the start and after each '-', lower case elsewhere. *)
Definition ascii_upper (c : ascii) : ascii :=
  let n := nat_of_ascii c in
  if ((97 <=? n) && (n <=? 122))%nat then ascii_of_nat (n - 32) else c.
Definition ascii_lower (c : ascii) : ascii :=
  let n := nat_of_ascii c in
  if ((65 <=? n) && (n <=? 90))%nat then ascii_of_nat (n + 32) else c.

Fixpoint canon_aux (upper : bool) (s : string) : string :=
  match s with
  | EmptyString => EmptyString
  | String c s' =>
      String (if upper then ascii_upper c else ascii_lower c)
             (canon_aux (Ascii.eqb c "-"%char) s')
  end.

Definition CanonicalMIMEHeaderKey (k : string) : string := canon_aux true k.

(** [http.Header], a map from canonical keys to their values. *)
Definition Header := list (string * list string).

Definition header_remove (k : string) (h : Header) : Header :=
  filter (fun kv => negb (String.eqb (fst kv) k)) h.

Definition header_lookup (k : string) (h : Header) : option (list string) :=
  option_map snd (find (fun kv => String.eqb (fst kv) k) h).

(** [h.Set(k, v)] *)
Definition header_Set (h : Header) (k v : string) : Header :=
  let ck := CanonicalMIMEHeaderKey k in (ck, [v]) :: header_remove ck h.

(** [h.Add(k, v)] *)
Definition header_Add (h : Header) (k v : string) : Header :=
  let ck := CanonicalMIMEHeaderKey k in
  match header_lookup ck h with
  | Some vs => (ck, (vs ++ [v])%list) :: header_remove ck h
  | None => (ck, [v]) :: h
  end.

(** [h.Get(k)] *)
Definition header_Get (h : Header) (k : string) : string :=
  match header_lookup (CanonicalMIMEHeaderKey k) h with
  | Some (v :: _) => v
  | _ => ""
  end.

(** [*http.Request]; [req_body] is [None] for a [nil] body. *)
Record request := mkRequest {
  req_method : string;
  req_url : string;
  req_header : Header;
  req_body : option string
}.

Definition set_header (r : request) (k v : string) : request :=
  mkRequest (req_method r) (req_url r) (header_Set (req_header r) k v) (req_body r).
Definition add_header (r : request) (k v : string) : request :=
  mkRequest (req_method r) (req_url r) (header_Add (req_header r) k v) (req_body r).

(** A response body: the bytes it yields and the error, if any, that ends
    the stream ([nil] for a clean EOF). *)
Record body := mkBody {
  body_data : string;
  body_err : option goerr
}.

(** [io.ReadAll(resp.Body)] *)
Definition ReadAll (b : body) : string * option goerr := (body_data b, body_err b).

Record response := mkResponse {
  resp_StatusCode : Z;
  resp_Body : body
}.

(** What [client.Do(req)] returns. *)
Inductive do_result : Type :=
  | DoErr (e : goerr)
  | DoResp (resp : response).

Definition StatusOK : Z := 200.
Definition StatusCreated : Z := 201.

(** Library code the file calls but does not define. *)
Record GoLib := mkGoLib {
  (** the error [http.NewRequest] returns for a method and URL, if any *)
  new_request_check : string -> string -> option goerr;
  (** [json.Marshal] on the request structs *)
  marshal_update : RecordUpdateRequest -> goerr + string;
  marshal_bulk : BulkRecordUpdateRequest -> goerr + string;
  marshal_primary : PrimaryServer -> goerr + string;
  (** [json.NewDecoder(resp.Body).Decode(&v)] for the response shapes *)
  decode_zones : body -> goerr + list Zone;
  decode_records : body -> goerr + list RecordResponse;
  decode_primary_servers : body -> goerr + PrimaryServers;
  decode_primary_server : body -> goerr + PrimaryServer;
  (** the [hasUnicode] part of [strings.EqualFold], on the remaining bytes *)
  fold_unicode : string -> string -> bool
}.

(** ** The effect tree *)

Inductive io (A : Type) : Type :=
  | Ret (a : A)
  | Do (req : request) (k : do_result -> io A)
  | ReadFile (path : string) (k : string * option goerr -> io A).

Arguments Ret {A} a.
Arguments Do {A} req k.
Arguments ReadFile {A} path k.

Fixpoint bind {A B : Type} (m : io A) (f : A -> io B) : io B :=
  match m with
  | Ret a => f a
  | Do r k => Do r (fun x => bind (k x) f)
  | ReadFile p k => ReadFile p (fun x => bind (k x) f)
  end.

Notation "x <- m ;; k" := (bind m (fun x => k))
  (at level 61, m at next level, right associativity).

(** A world: the transport answers a request, knowing the requests sent
    before it; the file system answers [os.ReadFile]. *)
Record world := mkWorld {
  transport : list request -> request -> do_result;
  files : string -> string * option goerr
}.

(** Runs a program after the requests [hist]; returns the requests it sends
    and its result. *)
Fixpoint run {A : Type} (w : world) (hist : list request) (m : io A)
  : list request * A :=
  match m with
  | Ret a => ([], a)
  | Do r k =>
      let '(tr, a) := run w (hist ++ [r])%list (k (transport w hist r)) in (r :: tr, a)
  | ReadFile p k => run w hist (k (files w p))
  end.

(** ** The client (hetzner.go) *)

Section Client.

Context (L : GoLib).

(** [http.NewRequest(method, url, body)]: a request with an empty header. *)
Definition NewRequest (method url : string) (b : option string) : goerr + request :=
  match new_request_check L method url with
  | Some err => inl err
  | None => inr (mkRequest method url [] b)
  end.

(** [strings.EqualFold]: the ASCII fast path, handing over to the Unicode
    comparison at the first non-ASCII byte. *)
Fixpoint EqualFold (s t : string) : bool :=
  match s, t with
  | String a s', String b t' =>
      let sr := nat_of_ascii a in
      let tr := nat_of_ascii b in
      if ((128 <=? sr) || (128 <=? tr))%nat then fold_unicode L s t
      else if (tr =? sr)%nat then EqualFold s' t'
      else
        let '(sr, tr) := if (tr <? sr)%nat then (tr, sr) else (sr, tr) in
        if ((65 <=? sr) && (sr <=? 90) && (tr =? sr + 32))%nat
        then EqualFold s' t' else false
  | EmptyString, EmptyString => true
  | _, _ => false
  end.

(** [apiBaseURL] *)
Definition apiBaseURL (h : Hetzner) : string :=
  if (0 <? String.length (APIBaseUrl h))%nat then APIBaseUrl h
  else "https://dns.hetzner.com/api/v1".

(** [createApiErrorMessage] *)
Definition createApiErrorMessage (resp : response) : goerr :=
  let '(b, err) := ReadAll (resp_Body resp) in
  match err with
  | Some e => e
  | None =>
      EText ("API request failed with status " ++ itoa (resp_StatusCode resp)
             ++ ": " ++ b)
  end.

(** [FindAllZones] *)
Definition FindAllZones (h : Hetzner) : io (list Zone * option goerr) :=
  let url := apiBaseURL h ++ "/zones" in
  match NewRequest "GET" url None with
  | inl err => Ret ([], Some (EWrap "failed to create request: " err))
  | inr req =>
      let req := set_header req "Auth-API-Token" (APIKey h) in
      Do req (fun res =>
        match res with
        | DoErr err => Ret ([], Some (EWrap "failed to execute request: " err))
        | DoResp resp =>
            if negb (resp_StatusCode resp =? StatusOK)%Z
            then Ret ([], Some (createApiErrorMessage resp))
            else match decode_zones L (resp_Body resp) with
                 | inl err => Ret ([], Some (EWrap "failed to decode response body: " err))
                 | inr zones => Ret (zones, None)
                 end
        end)
  end.

(** The loop of [FindZoneID]. *)
Fixpoint FindZoneID_loop (domainName : string) (zones : list Zone) : option string :=
  match zones with
  | [] => None
  | zone :: rest =>
      if EqualFold (zone_Name zone) domainName then Some (zone_ID zone)
      else FindZoneID_loop domainName rest
  end.

(** [FindZoneID] *)
Definition FindZoneID (h : Hetzner) (domainName : string) : io (string * option goerr) :=
  r <- FindAllZones h ;;
  let '(zones, err) := r in
  match err with
  | Some e => Ret ("", Some e)
  | None =>
      match FindZoneID_loop domainName zones with
      | Some id => Ret (id, None)
      | None => Ret ("", Some (EText ("zone for domain " ++ domainName ++ " not found")))
      end
  end.

(** [FindAllRecordsForZone] *)
Definition FindAllRecordsForZone (h : Hetzner) (zoneID : string)
  : io (list RecordResponse * option goerr) :=
  let url := apiBaseURL h ++ "/records?zone_id=" ++ zoneID in
  match NewRequest "GET" url None with
  | inl err => Ret ([], Some (EWrap "failed to create request: " err))
  | inr req =>
      let req := set_header req "Auth-API-Token" (APIKey h) in
      Do req (fun res =>
        match res with
        | DoErr err => Ret ([], Some (EWrap "failed to execute request: " err))
        | DoResp resp =>
            if negb (resp_StatusCode resp =? StatusOK)%Z
            then Ret ([], Some (createApiErrorMessage resp))
            else match decode_records L (resp_Body resp) with
                 | inl err => Ret ([], Some (EWrap "failed to decode response body: " err))
                 | inr records => Ret (records, None)
                 end
        end)
  end.

(** The loop of [FindRecordsByName]: [matchingRecords = append(...)]. *)
Definition FindRecordsByName_loop (recordName : string) (records : list RecordResponse)
  : list RecordResponse :=
  fold_left (fun matchingRecords record =>
               if EqualFold (rr_Name record) recordName
               then (matchingRecords ++ [record])%list else matchingRecords)
            records [].

(** [FindRecordsByName] *)
Definition FindRecordsByName (h : Hetzner) (zoneID recordName : string)
  : io (list RecordResponse * option goerr) :=
  r <- FindAllRecordsForZone h zoneID ;;
  let '(records, err) := r in
  match err with
  | Some e => Ret ([], Some e)
  | None => Ret (FindRecordsByName_loop recordName records, None)
  end.

(** The loop of [FindRecordById]. *)
Fixpoint FindRecordById_loop (recordId : string) (records : list RecordResponse)
  : option RecordResponse :=
  match records with
  | [] => None
  | record :: rest =>
      if String.eqb (rr_ID record) recordId then Some record
      else FindRecordById_loop recordId rest
  end.

(** [FindRecordById] *)
Definition FindRecordById (h : Hetzner) (zoneID recordId : string)
  : io (RecordResponse * option goerr) :=
  r <- FindAllRecordsForZone h zoneID ;;
  let '(records, err) := r in
  match err with
  | Some e => Ret (zero_RecordResponse, Some e)
  | None =>
      match FindRecordById_loop recordId records with
      | Some record => Ret (record, None)
      | None => Ret (zero_RecordResponse, Some (EText "record not found"))
      end
  end.

(** The request-sending tail shared by the write operations: run
    [client.Do(req)] and map any status other than [ok] to
    [createApiErrorMessage]. *)
Definition send_expect (req : request) (ok : Z) : io (option goerr) :=
  Do req (fun res =>
    match res with
    | DoErr err => Ret (Some (EWrap "failed to execute request: " err))
    | DoResp resp =>
        if negb (resp_StatusCode resp =? ok)%Z
        then Ret (Some (createApiErrorMessage resp))
        else Ret None
    end).

(** [UpdateRecord] *)
Definition UpdateRecord (h : Hetzner) (zoneID recordID recordType recordName recordValue : string)
  : io (option goerr) :=
  let url := apiBaseURL h ++ "/records/" ++ recordID in
  let updatedRecord := mkRecordUpdateRequest recordID zoneID recordType recordName recordValue in
  match marshal_update L updatedRecord with
  | inl err => Ret (Some (EWrap "failed to marshal request body: " err))
  | inr requestBody =>
      match NewRequest "PUT" url (Some requestBody) with
      | inl err => Ret (Some (EWrap "failed to create request: " err))
      | inr req =>
          let req := set_header req "Content-Type" "application/json" in
          let req := set_header req "Auth-API-Token" (APIKey h) in
          send_expect req StatusOK
      end
  end.

(** [CreateRecord] *)
Definition CreateRecord (h : Hetzner) (zoneID recordType recordName recordValue : string)
  : io (option goerr) :=
  let url := apiBaseURL h ++ "/records" in
  let newRecord := mkRecordUpdateRequest "" zoneID recordType recordName recordValue in
  match marshal_update L newRecord with
  | inl err => Ret (Some (EWrap "failed to marshal request body: " err))
  | inr requestBody =>
      match NewRequest "POST" url (Some requestBody) with
      | inl err => Ret (Some (EWrap "failed to create request: " err))
      | inr req =>
          let req := set_header req "Content-Type" "application/json" in
          let req := set_header req "Auth-API-Token" (APIKey h) in
          send_expect req StatusCreated
      end
  end.

(** [BulkCreateRecord] *)
Definition BulkCreateRecord (h : Hetzner) (zoneID : string) (records : list RecordUpdateRequest)
  : io (option goerr) :=
  let url := apiBaseURL h ++ "/records/bulk" in
  let bulkRequest := mkBulkRecordUpdateRequest records in
  match marshal_bulk L bulkRequest with
  | inl err => Ret (Some (EWrap "failed to marshal request body: " err))
  | inr requestBody =>
      match NewRequest "POST" url (Some requestBody) with
      | inl err => Ret (Some (EWrap "failed to create request: " err))
      | inr req =>
          let req := set_header req "Content-Type" "application/json" in
          let req := set_header req "Auth-API-Token" (APIKey h) in
          send_expect req StatusOK
      end
  end.

(** [BulkUpdateRecord] *)
Definition BulkUpdateRecord (h : Hetzner) (zoneID : string) (records : list RecordUpdateRequest)
  : io (option goerr) :=
  let url := apiBaseURL h ++ "/records/bulk" in
  let bulkRequest := mkBulkRecordUpdateRequest records in
  match marshal_bulk L bulkRequest with
  | inl err => Ret (Some (EWrap "failed to marshal request body: " err))
  | inr requestBody =>
      match NewRequest "PUT" url (Some requestBody) with
      | inl err => Ret (Some (EWrap "failed to create request: " err))
      | inr req =>
          let req := set_header req "Content-Type" "application/json" in
          let req := set_header req "Auth-API-Token" (APIKey h) in
          send_expect req StatusOK
      end
  end.

(** [CreateOrUpdateRecord] *)
Definition CreateOrUpdateRecord (h : Hetzner) (zoneID recordType recordName recordValue : string)
  : io (option goerr) :=
  r <- FindRecordsByName h zoneID recordName ;;
  let '(records, err) := r in
  match err with
  | Some e => Ret (Some e)
  | None =>
      match records with
      | record :: _ =>
          UpdateRecord h zoneID (rr_ID record) (rr_Type record) (rr_Name record) recordValue
      | [] => CreateRecord h zoneID recordType recordName recordValue
      end
  end.

(** [DeleteRecord] *)
Definition DeleteRecord (h : Hetzner) (recordID : string) : io (option goerr) :=
  let url := apiBaseURL h ++ "/records/" ++ recordID in
  match NewRequest "DELETE" url None with
  | inl err => Ret (Some (EWrap "failed to create request: " err))
  | inr req =>
      let req := set_header req "Content-Type" "application/json" in
      let req := set_header req "Auth-API-Token" (APIKey h) in
      Do req (fun res =>
        match res with
        | DoErr err => Ret (Some (EWrap "failed to execute request: " err))
        | DoResp resp =>
            if negb (resp_StatusCode resp =? StatusOK)%Z
            then Ret (Some (EText ("API request failed with status "
                                   ++ itoa (resp_StatusCode resp))))
            else Ret None
        end)
  end.

(** [ExportZoneFile] *)
Definition ExportZoneFile (h : Hetzner) (zoneID : string) : io (string * option goerr) :=
  let url := apiBaseURL h ++ "/zones/" ++ zoneID ++ "/export" in
  match NewRequest "GET" url None with
  | inl err => Ret ("", Some (EWrap "failed to create request: " err))
  | inr req =>
      let req := add_header req "Content-Type" "application/x-www-form-urlencoded; charset=utf-8" in
      let req := set_header req "Auth-API-Token" (APIKey h) in
      Do req (fun res =>
        match res with
        | DoErr err => Ret ("", Some (EWrap "failed to execute request: " err))
        | DoResp resp =>
            if negb (resp_StatusCode resp =? StatusOK)%Z
            then Ret ("", Some (EText ("API request failed with status "
                                       ++ itoa (resp_StatusCode resp))))
            else Ret (ReadAll (resp_Body resp))
        end)
  end.

(** [ValidateZoneFile] *)
Definition ValidateZoneFile (h : Hetzner) (zoneFile : string) : io (option goerr) :=
  let url := apiBaseURL h ++ "/zones/file/validate" in
  ReadFile zoneFile (fun rf =>
    let '(requestBody, err) := rf in
    match err with
    | Some e => Ret (Some (EWrap "failed to read zone file: " e))
    | None =>
        match NewRequest "POST" url (Some requestBody) with
        | inl err => Ret (Some (EWrap "failed to create request: " err))
        | inr req =>
            let req := add_header req "Content-Type" "text/plain" in
            let req := set_header req "Auth-API-Token" (APIKey h) in
            send_expect req StatusOK
        end
    end).

(** [ImportZoneFile] *)
Definition ImportZoneFile (h : Hetzner) (zoneID zoneFile : string) : io (option goerr) :=
  let url := apiBaseURL h ++ "/zones/" ++ zoneID ++ "/import" in
  ReadFile zoneFile (fun rf =>
    let '(requestBody, err) := rf in
    match err with
    | Some e => Ret (Some (EWrap "failed to read zone file: " e))
    | None =>
        match NewRequest "POST" url (Some requestBody) with
        | inl err => Ret (Some (EWrap "failed to create request: " err))
        | inr req =>
            let req := add_header req "Content-Type" "text/plain" in
            let req := set_header req "Auth-API-Token" (APIKey h) in
            send_expect req StatusOK
        end
    end).

(** [FindAllPrimaryServers] *)
Definition FindAllPrimaryServers (h : Hetzner) : io (PrimaryServers * option goerr) :=
  let url := apiBaseURL h ++ "/primary_servers" in
  match NewRequest "GET" url None with
  | inl err => Ret (zero_PrimaryServers, Some (EWrap "failed to create request: " err))
  | inr req =>
      let req := set_header req "Auth-API-Token" (APIKey h) in
      Do req (fun res =>
        match res with
        | DoErr err => Ret (zero_PrimaryServers, Some (EWrap "failed to execute request: " err))
        | DoResp resp =>
            if negb (resp_StatusCode resp =? StatusOK)%Z
            then Ret (zero_PrimaryServers, Some (createApiErrorMessage resp))
            else match decode_primary_servers L (resp_Body resp) with
                 | inl err => Ret (zero_PrimaryServers,
                                   Some (EWrap "failed to decode response body: " err))
                 | inr ps => Ret (ps, None)
                 end
        end)
  end.

(** [CreatePrimaryServer] *)
Definition CreatePrimaryServer (h : Hetzner) (zoneID address : string) (port : Z)
  : io (option goerr) :=
  let url := apiBaseURL h ++ "/primary_servers" in
  let primaryServer := mkPrimaryServer port "" 0 0 zoneID address in
  match marshal_primary L primaryServer with
  | inl err => Ret (Some (EWrap "failed to marshal request body: " err))
  | inr requestBody =>
      match NewRequest "POST" url (Some requestBody) with
      | inl err => Ret (Some (EWrap "failed to create request: " err))
      | inr req =>
          let req := add_header req "Content-Type" "application/json" in
          let req := set_header req "Auth-API-Token" (APIKey h) in
          send_expect req StatusOK
      end
  end.

(** [UpdatePrimaryServer] *)
Definition UpdatePrimaryServer (h : Hetzner) (zoneID id address : string) (port : Z)
  : io (option goerr) :=
  let url := apiBaseURL h ++ "/primary_servers" in
  let primaryServer := mkPrimaryServer port id 0 0 zoneID address in
  match marshal_primary L primaryServer with
  | inl err => Ret (Some (EWrap "failed to marshal request body: " err))
  | inr requestBody =>
      match NewRequest "PUT" url (Some requestBody) with
      | inl err => Ret (Some (EWrap "failed to create request: " err))
      | inr req =>
          let req := add_header req "Content-Type" "application/json" in
          let req := set_header req "Auth-API-Token" (APIKey h) in
          send_expect req StatusOK
      end
  end.

(** The request and decoding shared by [GetPrimaryServer] and
    [DeletePrimaryServer], which differ only in the method. *)
Definition primary_server_call (method : string) (h : Hetzner) (id : string)
  : io (PrimaryServer * option goerr) :=
  let url := apiBaseURL h ++ "/primary_servers/" ++ id in
  match NewRequest method url None with
  | inl err => Ret (zero_PrimaryServer, Some (EWrap "failed to create request: " err))
  | inr req =>
      let req := set_header req "Content-Type" "application/json" in
      let req := set_header req "Auth-API-Token" (APIKey h) in
      Do req (fun res =>
        match res with
        | DoErr err => Ret (zero_PrimaryServer, Some (EWrap "failed to execute request: " err))
        | DoResp resp =>
            if negb (resp_StatusCode resp =? StatusOK)%Z
            then Ret (zero_PrimaryServer, Some (createApiErrorMessage resp))
            else match decode_primary_server L (resp_Body resp) with
                 | inl err => Ret (zero_PrimaryServer,
                                   Some (EWrap "failed to decode response body: " err))
                 | inr ps => Ret (ps, None)
                 end
        end)
  end.

(** [GetPrimaryServer] *)
Definition GetPrimaryServer (h : Hetzner) (id : string) : io (PrimaryServer * option goerr) :=
  primary_server_call "GET" h id.

(** [DeletePrimaryServer] *)
Definition DeletePrimaryServer (h : Hetzner) (id : string) : io (PrimaryServer * option goerr) :=
  primary_server_call "DELETE" h id.

(** The operations of the client that talk to the API, with their
    arguments ([PrintRecords] only prints and sends nothing). *)
Inductive Op : Type :=
  | OpFindAllZones
  | OpFindZoneID (domainName : string)
  | OpFindAllRecordsForZone (zoneID : string)
  | OpFindRecordsByName (zoneID recordName : string)
  | OpFindRecordById (zoneID recordId : string)
  | OpUpdateRecord (zoneID recordID recordType recordName recordValue : string)
  | OpCreateRecord (zoneID recordType recordName recordValue : string)
  | OpBulkCreateRecord (zoneID : string) (records : list RecordUpdateRequest)
  | OpBulkUpdateRecord (zoneID : string) (records : list RecordUpdateRequest)
  | OpCreateOrUpdateRecord (zoneID recordType recordName recordValue : string)
  | OpDeleteRecord (recordID : string)
  | OpExportZoneFile (zoneID : string)
  | OpValidateZoneFile (zoneFile : string)
  | OpImportZoneFile (zoneID zoneFile : string)
  | OpFindAllPrimaryServers
  | OpCreatePrimaryServer (zoneID address : string) (port : Z)
  | OpUpdatePrimaryServer (zoneID id address : string) (port : Z)
  | OpGetPrimaryServer (id : string)
  | OpDeletePrimaryServer (id : string).

Definition err_of {A : Type} (m : io (A * option goerr)) : io (option goerr) :=
  r <- m ;; Ret (snd r).

(** An operation as a program returning its [error] result. *)
Definition op_prog (h : Hetzner) (o : Op) : io (option goerr) :=
  match o with
  | OpFindAllZones => err_of (FindAllZones h)
  | OpFindZoneID d => err_of (FindZoneID h d)
  | OpFindAllRecordsForZone z => err_of (FindAllRecordsForZone h z)
  | OpFindRecordsByName z n => err_of (FindRecordsByName h z n)
  | OpFindRecordById z i => err_of (FindRecordById h z i)
  | OpUpdateRecord z i t n v => UpdateRecord h z i t n v
  | OpCreateRecord z t n v => CreateRecord h z t n v
  | OpBulkCreateRecord z rs => BulkCreateRecord h z rs
  | OpBulkUpdateRecord z rs => BulkUpdateRecord h z rs
  | OpCreateOrUpdateRecord z t n v => CreateOrUpdateRecord h z t n v
  | OpDeleteRecord i => DeleteRecord h i
  | OpExportZoneFile z => err_of (ExportZoneFile h z)
  | OpValidateZoneFile f => ValidateZoneFile h f
  | OpImportZoneFile z f => ImportZoneFile h z f
  | OpFindAllPrimaryServers => err_of (FindAllPrimaryServers h)
  | OpCreatePrimaryServer z a p => CreatePrimaryServer h z a p
  | OpUpdatePrimaryServer z i a p => UpdatePrimaryServer h z i a p
  | OpGetPrimaryServer i => err_of (GetPrimaryServer h i)
  | OpDeletePrimaryServer i => err_of (DeletePrimaryServer h i)
  end.

End Client.

(** ** A library instance used to exercise the theorems *)

Definition example_lib : GoLib :=
  mkGoLib (fun _ _ => None)
          (fun _ => inr "{}") (fun _ => inr "{}") (fun _ => inr "{}")
          (fun _ => inr [mkZone "1" "example.com"])
          (fun _ => inr [])
          (fun _ => inr zero_PrimaryServers)
          (fun _ => inr zero_PrimaryServer)
          (fun _ _ => false).

Definition example_client : Hetzner := mkHetzner "secret-token" "".

(** A world whose transport answers every request with [resp]. *)
Definition answering (resp : response) : world :=
  mkWorld (fun _ _ => DoResp resp) (fun _ => ("", None)).

Example itoa_500 : itoa 500 = "500".
Proof. reflexivity. Qed.

Example itoa_minus_7 : itoa (-7) = "-7".
Proof. reflexivity. Qed.

Example EqualFold_ascii : EqualFold example_lib "Example.com" "eXAMPLE.COM" = true.
Proof. reflexivity. Qed.

Example EqualFold_differs : EqualFold example_lib "example.com" "example.org" = false.
Proof. reflexivity. Qed.

Example canonical_auth_key : CanonicalMIMEHeaderKey "Auth-API-Token" = "Auth-Api-Token".
Proof. reflexivity. Qed.

(** ** Running programs *)

Lemma run_bind {A B : Type} (w : world) (m : io A) (f : A -> io B) (hist : list request) :
  run w hist (bind m f) =
  let '(tr1, a) := run w hist m in
  let '(tr2, b) := run w (hist ++ tr1)%list (f a) in ((tr1 ++ tr2)%list, b).
Proof.
  revert hist. induction m as [a | r k IH | p k IH]; intros hist; simpl.
  - rewrite app_nil_r. destruct (run w hist (f a)). reflexivity.
  - rewrite IH. destruct (run w (hist ++ [r])%list (k (transport w hist r))) as [tr1 a].
    rewrite <- app_assoc. simpl.
    destruct (run w (hist ++ r :: tr1)%list (f a)). reflexivity.
  - apply IH.
Qed.

(** The loop of [FindRecordsByName] keeps the matching records in order. *)
Lemma FindRecordsByName_loop_acc (L : GoLib) (name : string) (records acc : list RecordResponse) :
  fold_left (fun matchingRecords record =>
               if EqualFold L (rr_Name record) name
               then (matchingRecords ++ [record])%list else matchingRecords)
            records acc
  = (acc ++ filter (fun r => EqualFold L (rr_Name r) name) records)%list.
Proof.
  revert acc. induction records as [| r rs IH]; intros acc; simpl.
  - now rewrite app_nil_r.
  - destruct (EqualFold L (rr_Name r) name); rewrite IH.
    + now rewrite <- app_assoc.
    + reflexivity.
Qed.

Lemma FindRecordsByName_loop_filter (L : GoLib) (name : string) (records : list RecordResponse) :
  FindRecordsByName_loop L name records = filter (fun r => EqualFold L (rr_Name r) name) records.
Proof. unfold FindRecordsByName_loop. apply FindRecordsByName_loop_acc. Qed.

Lemma FindZoneID_loop_some (L : GoLib) (q : string) (zones : list Zone) (id : string) :
  FindZoneID_loop L q zones = Some id ->
  exists pre z post, zones = (pre ++ z :: post)%list /\
    Forall (fun y => EqualFold L (zone_Name y) q = false) pre /\
    EqualFold L (zone_Name z) q = true /\ id = zone_ID z.
Proof.
  induction zones as [| y ys IH]; simpl; [discriminate |].
  case_eq (EqualFold L (zone_Name y) q); intros Hy Hloop.
  - injection Hloop as <-. exists [], y, ys. auto.
  - destruct (IH Hloop) as (pre & z & post & -> & Hpre & Hz & ->).
    exists (y :: pre), z, post. simpl. auto.
Qed.

Lemma FindZoneID_loop_none (L : GoLib) (q : string) (zones : list Zone) :
  FindZoneID_loop L q zones = None ->
  Forall (fun y => EqualFold L (zone_Name y) q = false) zones.
Proof.
  induction zones as [| y ys IH]; simpl; [auto |].
  case_eq (EqualFold L (zone_Name y) q); intros Hy Hloop; [discriminate |].
  constructor; auto.
Qed.

Lemma FindRecordById_loop_some (q : string) (records : list RecordResponse) r :
  FindRecordById_loop q records = Some r ->
  exists pre post, records = (pre ++ r :: post)%list /\
    Forall (fun y => rr_ID y <> q) pre /\ rr_ID r = q.
Proof.
  induction records as [| y ys IH]; simpl; [discriminate |].
  case_eq (String.eqb (rr_ID y) q); intros Hy Hloop.
  - injection Hloop as <-. exists [], ys. apply String.eqb_eq in Hy. auto.
  - destruct (IH Hloop) as (pre & post & -> & Hpre & Hr).
    exists (y :: pre), post. apply String.eqb_neq in Hy. simpl. auto.
Qed.

Lemma FindRecordById_loop_none (q : string) (records : list RecordResponse) :
  FindRecordById_loop q records = None -> Forall (fun y => rr_ID y <> q) records.
Proof.
  induction records as [| y ys IH]; simpl; [auto |].
  case_eq (String.eqb (rr_ID y) q); intros Hy Hloop; [discriminate |].
  apply String.eqb_neq in Hy. constructor; auto.
Qed.

(** ** Lookups *)

(** C5: after the list-zones call returned [zones], [FindZoneID] sends no
    further request and returns the id of the first zone whose name equals
    the query under [strings.EqualFold], or the client-side error
    "zone for domain ... not found" when none does; "example.com" and
    "EXAMPLE.COM" are equal under [EqualFold]. *)
Theorem FindZoneID_first_match (L : GoLib) (w : world) (hist : list request)
    (h : Hetzner) (domainName : string) (tr : list request) (zones : list Zone)
    (Hlist : run w hist (FindAllZones L h) = (tr, (zones, None))) :
  fst (run w hist (FindZoneID L h domainName)) = tr /\
  ((exists pre z post, zones = (pre ++ z :: post)%list /\
      Forall (fun y => EqualFold L (zone_Name y) domainName = false) pre /\
      EqualFold L (zone_Name z) domainName = true /\
      snd (run w hist (FindZoneID L h domainName)) = (zone_ID z, None)) \/
   (Forall (fun y => EqualFold L (zone_Name y) domainName = false) zones /\
      snd (run w hist (FindZoneID L h domainName)) =
      ("", Some (EText ("zone for domain " ++ domainName ++ " not found"))))) /\
  EqualFold L "example.com" "EXAMPLE.COM" = true.
Proof.
  unfold FindZoneID. rewrite run_bind, Hlist. cbn [run].
  split; [| split; [| reflexivity]].
  - destruct (FindZoneID_loop L domainName zones); simpl; apply app_nil_r.
  - case_eq (FindZoneID_loop L domainName zones).
    + intros id Hid. left.
      destruct (FindZoneID_loop_some L domainName zones id Hid)
        as (pre & z & post & Hz & Hpre & Hm & ->).
      exists pre, z, post. repeat split; auto.
    + intros Hnone. right. split; [now apply FindZoneID_loop_none | reflexivity].
Qed.

Lemma FindZoneID_first_match_witness :
  exists tr zones,
    run (answering (mkResponse 200 (mkBody "" None))) []
        (FindAllZones example_lib example_client) = (tr, (zones, None)) /\
    snd (run (answering (mkResponse 200 (mkBody "" None))) []
          (FindZoneID example_lib example_client "EXAMPLE.COM")) = ("1", None) /\
    fst (run (answering (mkResponse 200 (mkBody "" None))) []
          (FindZoneID example_lib example_client "EXAMPLE.COM")) = tr.
Proof.
  eexists _, _. split; [reflexivity |].
  split; [reflexivity |].
  exact (proj1 (FindZoneID_first_match example_lib (answering (mkResponse 200 (mkBody "" None)))
           [] example_client "EXAMPLE.COM" _ _ eq_refl)).
Defined.

(** C6: after the list-records call returned [records], [FindRecordsByName]
    sends no further request and returns exactly the records whose name
    equals the query under [strings.EqualFold], in their original order. *)
Theorem FindRecordsByName_filters (L : GoLib) (w : world) (hist : list request)
    (h : Hetzner) (zoneID recordName : string) (tr : list request)
    (records : list RecordResponse)
    (Hlist : run w hist (FindAllRecordsForZone L h zoneID) = (tr, (records, None))) :
  run w hist (FindRecordsByName L h zoneID recordName) =
  (tr, (filter (fun r => EqualFold L (rr_Name r) recordName) records, None)).
Proof.
  unfold FindRecordsByName. rewrite run_bind, Hlist. cbn [run].
  rewrite app_nil_r, FindRecordsByName_loop_filter. reflexivity.
Qed.

Definition example_txt (id value : string) : RecordResponse :=
  mkRecordResponse id "TXT" "_acme-challenge" value "z1" 60 "" "".

Definition example_records_lib : GoLib :=
  mkGoLib (fun _ _ => None)
          (fun _ => inr "{}") (fun _ => inr "{}") (fun _ => inr "{}")
          (fun _ => inr [])
          (fun _ => inr [example_txt "r1" "a"; mkRecordResponse "r2" "A" "www" "1.2.3.4" "z1" 60 "" "";
                         example_txt "r3" "b"])
          (fun _ => inr zero_PrimaryServers)
          (fun _ => inr zero_PrimaryServer)
          (fun _ _ => false).

Lemma FindRecordsByName_filters_witness :
  exists tr records,
    run (answering (mkResponse 200 (mkBody "" None))) []
        (FindAllRecordsForZone example_records_lib example_client "z1") = (tr, (records, None)) /\
    run (answering (mkResponse 200 (mkBody "" None))) []
        (FindRecordsByName example_records_lib example_client "z1" "_ACME-challenge") =
    (tr, ([example_txt "r1" "a"; example_txt "r3" "b"], None)).
Proof.
  eexists _, _. split; [reflexivity |].
  exact (FindRecordsByName_filters example_records_lib (answering (mkResponse 200 (mkBody "" None)))
           [] example_client "z1" "_ACME-challenge" _ _ eq_refl).
Defined.

(** C7: after the list-records call returned [records], [FindRecordById]
    sends no further request and returns the first record whose id is
    byte-for-byte equal to the query, or the client-side error
    "record not found" when none is; an id differing only in case does
    not match. *)
Theorem FindRecordById_exact (L : GoLib) (w : world) (hist : list request)
    (h : Hetzner) (zoneID recordId : string) (tr : list request)
    (records : list RecordResponse)
    (Hlist : run w hist (FindAllRecordsForZone L h zoneID) = (tr, (records, None))) :
  fst (run w hist (FindRecordById L h zoneID recordId)) = tr /\
  ((exists pre r post, records = (pre ++ r :: post)%list /\
      Forall (fun y => rr_ID y <> recordId) pre /\ rr_ID r = recordId /\
      snd (run w hist (FindRecordById L h zoneID recordId)) = (r, None)) \/
   (Forall (fun y => rr_ID y <> recordId) records /\
      snd (run w hist (FindRecordById L h zoneID recordId)) =
      (zero_RecordResponse, Some (EText "record not found")))) /\
  FindRecordById_loop "ABC" [example_txt "abc" "v"] = None.
Proof.
  unfold FindRecordById. rewrite run_bind, Hlist. cbn [run].
  split; [| split; [| reflexivity]].
  - destruct (FindRecordById_loop recordId records); simpl; apply app_nil_r.
  - case_eq (FindRecordById_loop recordId records).
    + intros r Hr. left.
      destruct (FindRecordById_loop_some recordId records r Hr) as (pre & post & Hrs & Hpre & Hid).
      exists pre, r, post. repeat split; auto.
    + intros Hnone. right. split; [now apply FindRecordById_loop_none | reflexivity].
Qed.

Lemma FindRecordById_exact_witness :
  exists tr records,
    run (answering (mkResponse 200 (mkBody "" None))) []
        (FindAllRecordsForZone example_records_lib example_client "z1") = (tr, (records, None)) /\
    fst (run (answering (mkResponse 200 (mkBody "" None))) []
          (FindRecordById example_records_lib example_client "z1" "r3")) = tr.
Proof.
  eexists _, _. split; [reflexivity |].
  exact (proj1 (FindRecordById_exact example_records_lib (answering (mkResponse 200 (mkBody "" None)))
           [] example_client "z1" "r3" _ _ eq_refl)).
Defined.

(** ** Reconciliation *)

Lemma send_expect_requests (w : world) (hist : list request) (req : request) (ok : Z) :
  fst (run w hist (send_expect req ok)) = [req].
Proof.
  unfold send_expect. simpl.
  destruct (transport w hist req) as [e | resp]; [reflexivity |].
  destruct (negb (resp_StatusCode resp =? ok)%Z); reflexivity.
Qed.

(** The requests [UpdateRecord] sends: none when marshalling or building
    the request fails, otherwise one [PUT] to [/records/{id}]. *)
Lemma UpdateRecord_requests (L : GoLib) (w : world) (hist : list request)
    (h : Hetzner) (zoneID recordID recordType recordName recordValue : string) :
  fst (run w hist (UpdateRecord L h zoneID recordID recordType recordName recordValue)) =
  match marshal_update L (mkRecordUpdateRequest recordID zoneID recordType recordName recordValue) with
  | inl _ => []
  | inr b =>
      match new_request_check L "PUT" (apiBaseURL h ++ "/records/" ++ recordID) with
      | Some _ => []
      | None =>
          [set_header (set_header (mkRequest "PUT" (apiBaseURL h ++ "/records/" ++ recordID) [] (Some b))
                                  "Content-Type" "application/json")
                      "Auth-API-Token" (APIKey h)]
      end
  end.
Proof.
  unfold UpdateRecord, NewRequest.
  destruct (marshal_update L _); [reflexivity |].
  destruct (new_request_check L _ _); [reflexivity |].
  apply send_expect_requests.
Qed.

(** The requests [CreateRecord] sends: none when marshalling or building
    the request fails, otherwise one [POST] to [/records]. *)
Lemma CreateRecord_requests (L : GoLib) (w : world) (hist : list request)
    (h : Hetzner) (zoneID recordType recordName recordValue : string) :
  fst (run w hist (CreateRecord L h zoneID recordType recordName recordValue)) =
  match marshal_update L (mkRecordUpdateRequest "" zoneID recordType recordName recordValue) with
  | inl _ => []
  | inr b =>
      match new_request_check L "POST" (apiBaseURL h ++ "/records") with
      | Some _ => []
      | None =>
          [set_header (set_header (mkRequest "POST" (apiBaseURL h ++ "/records") [] (Some b))
                                  "Content-Type" "application/json")
                      "Auth-API-Token" (APIKey h)]
      end
  end.
Proof.
  unfold CreateRecord, NewRequest.
  destruct (marshal_update L _); [reflexivity |].
  destruct (new_request_check L _ _); [reflexivity |].
  apply send_expect_requests.
Qed.

(** C1: when the lookup by name returned [record :: rest], the rest of
    [CreateOrUpdateRecord] is one call of [UpdateRecord] for
    [record]'s id, type and name with the caller's value (neither the
    caller's type nor [rest] takes part), which sends at most one request:
    the [PUT] to [/records/{record id}] whose body is that record. *)
Theorem CreateOrUpdateRecord_updates_first (L : GoLib) (w : world) (hist : list request)
    (h : Hetzner) (zoneID recordType recordName recordValue : string)
    (tr1 : list request) (record : RecordResponse) (rest : list RecordResponse)
    (Hfind : run w hist (FindRecordsByName L h zoneID recordName) = (tr1, (record :: rest, None))) :
  run w hist (CreateOrUpdateRecord L h zoneID recordType recordName recordValue) =
  ((tr1 ++ fst (run w (hist ++ tr1)%list
       (UpdateRecord L h zoneID (rr_ID record) (rr_Type record) (rr_Name record) recordValue)))%list,
   snd (run w (hist ++ tr1)%list
       (UpdateRecord L h zoneID (rr_ID record) (rr_Type record) (rr_Name record) recordValue))) /\
  fst (run w (hist ++ tr1)%list
       (UpdateRecord L h zoneID (rr_ID record) (rr_Type record) (rr_Name record) recordValue)) =
  match marshal_update L (mkRecordUpdateRequest (rr_ID record) zoneID (rr_Type record)
                                                (rr_Name record) recordValue) with
  | inl _ => []
  | inr b =>
      match new_request_check L "PUT" (apiBaseURL h ++ "/records/" ++ rr_ID record) with
      | Some _ => []
      | None =>
          [set_header (set_header (mkRequest "PUT" (apiBaseURL h ++ "/records/" ++ rr_ID record) []
                                             (Some b))
                                  "Content-Type" "application/json")
                      "Auth-API-Token" (APIKey h)]
      end
  end.
Proof.
  split; [| apply UpdateRecord_requests].
  unfold CreateOrUpdateRecord. rewrite run_bind, Hfind.
  destruct (run w (hist ++ tr1)%list _). reflexivity.
Qed.

Definition single_record_lib : GoLib :=
  mkGoLib (fun _ _ => None)
          (fun _ => inr "{}") (fun _ => inr "{}") (fun _ => inr "{}")
          (fun _ => inr [])
          (fun _ => inr [example_txt "r1" "old"; example_txt "r2" "other"])
          (fun _ => inr zero_PrimaryServers)
          (fun _ => inr zero_PrimaryServer)
          (fun _ _ => false).

Lemma CreateOrUpdateRecord_updates_first_witness :
  exists tr1 rest,
    run (answering (mkResponse 200 (mkBody "" None))) []
        (FindRecordsByName single_record_lib example_client "z1" "_acme-challenge") =
    (tr1, (example_txt "r1" "old" :: rest, None)) /\
    map req_method (fst (run (answering (mkResponse 200 (mkBody "" None))) []
        (CreateOrUpdateRecord single_record_lib example_client "z1" "A" "_acme-challenge" "new")))
    = ["GET"; "PUT"].
Proof.
  eexists _, _. split; [reflexivity |].
  rewrite (proj1 (CreateOrUpdateRecord_updates_first single_record_lib
             (answering (mkResponse 200 (mkBody "" None))) [] example_client
             "z1" "A" "_acme-challenge" "new" _ _ _ eq_refl)).
  reflexivity.
Defined.

(** C3: when the lookup by name returned no record, the rest of
    [CreateOrUpdateRecord] is one call of [CreateRecord] with the caller's
    type, name and value, which sends at most one request, a [POST] to
    [/records] with that record as body, and no [PUT]. *)
Theorem CreateOrUpdateRecord_creates_when_absent (L : GoLib) (w : world) (hist : list request)
    (h : Hetzner) (zoneID recordType recordName recordValue : string) (tr1 : list request)
    (Hfind : run w hist (FindRecordsByName L h zoneID recordName) = (tr1, ([], None))) :
  run w hist (CreateOrUpdateRecord L h zoneID recordType recordName recordValue) =
  ((tr1 ++ fst (run w (hist ++ tr1)%list (CreateRecord L h zoneID recordType recordName recordValue)))%list,
   snd (run w (hist ++ tr1)%list (CreateRecord L h zoneID recordType recordName recordValue))) /\
  fst (run w (hist ++ tr1)%list (CreateRecord L h zoneID recordType recordName recordValue)) =
  match marshal_update L (mkRecordUpdateRequest "" zoneID recordType recordName recordValue) with
  | inl _ => []
  | inr b =>
      match new_request_check L "POST" (apiBaseURL h ++ "/records") with
      | Some _ => []
      | None =>
          [set_header (set_header (mkRequest "POST" (apiBaseURL h ++ "/records") [] (Some b))
                                  "Content-Type" "application/json")
                      "Auth-API-Token" (APIKey h)]
      end
  end.
Proof.
  split; [| apply CreateRecord_requests].
  unfold CreateOrUpdateRecord. rewrite run_bind, Hfind.
  destruct (run w (hist ++ tr1)%list _). reflexivity.
Qed.

Lemma CreateOrUpdateRecord_creates_when_absent_witness :
  exists tr1,
    run (answering (mkResponse 200 (mkBody "" None))) []
        (FindRecordsByName example_lib example_client "z1" "www") = (tr1, ([], None)) /\
    map req_method (fst (run (answering (mkResponse 200 (mkBody "" None))) []
        (CreateOrUpdateRecord example_lib example_client "z1" "A" "www" "1.2.3.4")))
    = ["GET"; "POST"].
Proof.
  eexists _. split; [reflexivity |].
  rewrite (proj1 (CreateOrUpdateRecord_creates_when_absent example_lib
             (answering (mkResponse 200 (mkBody "" None))) [] example_client
             "z1" "A" "www" "1.2.3.4" _ eq_refl)).
  reflexivity.
Defined.

(** C8: when the lookup by name fails with [e], [CreateOrUpdateRecord]
    returns [e] itself and sends nothing after the lookup's requests. *)
Theorem CreateOrUpdateRecord_read_error (L : GoLib) (w : world) (hist : list request)
    (h : Hetzner) (zoneID recordType recordName recordValue : string)
    (tr : list request) (records : list RecordResponse) (e : goerr)
    (Hfind : run w hist (FindRecordsByName L h zoneID recordName) = (tr, (records, Some e))) :
  run w hist (CreateOrUpdateRecord L h zoneID recordType recordName recordValue) = (tr, Some e).
Proof.
  unfold CreateOrUpdateRecord. rewrite run_bind, Hfind. simpl.
  now rewrite app_nil_r.
Qed.

Lemma CreateOrUpdateRecord_read_error_witness :
  run (mkWorld (fun _ _ => DoErr (ELib "dial tcp: connection refused")) (fun _ => ("", None))) []
      (FindRecordsByName example_lib example_client "z1" "www") =
  (fst (run (mkWorld (fun _ _ => DoErr (ELib "dial tcp: connection refused")) (fun _ => ("", None))) []
      (FindRecordsByName example_lib example_client "z1" "www")),
   ([], Some (EWrap "failed to execute request: " (ELib "dial tcp: connection refused")))) /\
  snd (run (mkWorld (fun _ _ => DoErr (ELib "dial tcp: connection refused")) (fun _ => ("", None))) []
      (CreateOrUpdateRecord example_lib example_client "z1" "A" "www" "1.2.3.4")) =
  Some (EWrap "failed to execute request: " (ELib "dial tcp: connection refused")).
Proof.
  split; [reflexivity |].
  rewrite (CreateOrUpdateRecord_read_error example_lib
             (mkWorld (fun _ _ => DoErr (ELib "dial tcp: connection refused")) (fun _ => ("", None)))
             [] example_client "z1" "A" "www" "1.2.3.4" _ _ _ eq_refl).
  reflexivity.
Defined.

(** ** Status codes and errors *)

(** C4: once [CreateRecord] or [UpdateRecord] has sent its request and the
    transport answered [resp], [CreateRecord] succeeds exactly when the
    status is 201 (so a 200 is an error), and [UpdateRecord] exactly when
    it is 200. *)
Theorem CreateRecord_201_UpdateRecord_200 (L : GoLib) (w : world) (hist : list request)
    (h : Hetzner) (zoneID recordID recordType recordName recordValue : string)
    (resp : response) (b1 b2 : string)
    (Hm1 : marshal_update L (mkRecordUpdateRequest "" zoneID recordType recordName recordValue) = inr b1)
    (Hr1 : new_request_check L "POST" (apiBaseURL h ++ "/records") = None)
    (Hm2 : marshal_update L (mkRecordUpdateRequest recordID zoneID recordType recordName recordValue)
           = inr b2)
    (Hr2 : new_request_check L "PUT" (apiBaseURL h ++ "/records/" ++ recordID) = None)
    (Ht : forall r, transport w hist r = DoResp resp) :
  (snd (run w hist (CreateRecord L h zoneID recordType recordName recordValue)) = None
   <-> resp_StatusCode resp = 201%Z) /\
  (resp_StatusCode resp = 200%Z ->
   snd (run w hist (CreateRecord L h zoneID recordType recordName recordValue))
   = Some (createApiErrorMessage resp)) /\
  (snd (run w hist (UpdateRecord L h zoneID recordID recordType recordName recordValue)) = None
   <-> resp_StatusCode resp = 200%Z).
Proof.
  unfold CreateRecord, UpdateRecord, NewRequest, send_expect.
  rewrite Hm1, Hr1, Hm2, Hr2. simpl. rewrite !Ht.
  unfold StatusCreated, StatusOK.
  split; [| split].
  - destruct (resp_StatusCode resp =? 201)%Z eqn:E; simpl.
    + apply Z.eqb_eq in E. tauto.
    + apply Z.eqb_neq in E. split; [discriminate | contradiction].
  - intros ->. reflexivity.
  - destruct (resp_StatusCode resp =? 200)%Z eqn:E; simpl.
    + apply Z.eqb_eq in E. tauto.
    + apply Z.eqb_neq in E. split; [discriminate | contradiction].
Qed.

Lemma CreateRecord_201_UpdateRecord_200_witness :
  snd (run (answering (mkResponse 200 (mkBody "" None))) []
        (CreateRecord example_lib example_client "z1" "A" "www" "1.2.3.4"))
  = Some (createApiErrorMessage (mkResponse 200 (mkBody "" None))).
Proof.
  apply (proj1 (proj2 (CreateRecord_201_UpdateRecord_200 example_lib
           (answering (mkResponse 200 (mkBody "" None))) [] example_client
           "z1" "r1" "A" "www" "1.2.3.4" (mkResponse 200 (mkBody "" None)) "{}" "{}"
           eq_refl eq_refl eq_refl eq_refl (fun _ => eq_refl)))).
  reflexivity.
Defined.

Definition internal_error : response := mkResponse 500 (mkBody "internal error" None).

(** C2 (the divergence): on an HTTP 500 with body "internal error",
    [DeleteRecord] and [ExportZoneFile] return the error text
    "API request failed with status 500", without the body, while the
    operations that go through [createApiErrorMessage], such as
    [UpdateRecord], return "API request failed with status 500: internal error". *)
Theorem DeleteRecord_ExportZoneFile_drop_body (L : GoLib) (w : world) (hist : list request)
    (h : Hetzner) (recordID zoneID : string)
    (Hd : new_request_check L "DELETE" (apiBaseURL h ++ "/records/" ++ recordID) = None)
    (He : new_request_check L "GET" (apiBaseURL h ++ "/zones/" ++ zoneID ++ "/export") = None)
    (Ht : forall r, transport w hist r = DoResp internal_error) :
  snd (run w hist (DeleteRecord L h recordID)) =
    Some (EText "API request failed with status 500") /\
  snd (run w hist (ExportZoneFile L h zoneID)) =
    ("", Some (EText "API request failed with status 500")) /\
  createApiErrorMessage internal_error =
    EText "API request failed with status 500: internal error".
Proof.
  unfold DeleteRecord, ExportZoneFile, NewRequest.
  rewrite Hd, He. simpl. rewrite !Ht. repeat split.
Qed.

Lemma DeleteRecord_ExportZoneFile_drop_body_witness :
  snd (run (answering internal_error) [] (DeleteRecord example_lib example_client "r1")) =
    Some (EText "API request failed with status 500") /\
  snd (run (answering internal_error) [] (UpdateRecord example_lib example_client "z1" "r1" "A" "www" "v")) =
    Some (EText "API request failed with status 500: internal error").
Proof.
  split; [| reflexivity].
  exact (proj1 (DeleteRecord_ExportZoneFile_drop_body example_lib (answering internal_error) []
           example_client "r1" "z1" eq_refl eq_refl (fun _ => eq_refl))).
Defined.

(** ** Zone id of the bulk operations *)

(** C10: [BulkCreateRecord] and [BulkUpdateRecord] are the same program
    for any two zone ids, hence send the same requests and return the same
    result in every world. *)
Theorem Bulk_zoneID_unused (L : GoLib) (h : Hetzner) (zoneID1 zoneID2 : string)
    (records : list RecordUpdateRequest) :
  BulkCreateRecord L h zoneID1 records = BulkCreateRecord L h zoneID2 records /\
  BulkUpdateRecord L h zoneID1 records = BulkUpdateRecord L h zoneID2 records /\
  (forall w hist,
     run w hist (BulkCreateRecord L h zoneID1 records) = run w hist (BulkCreateRecord L h zoneID2 records) /\
     run w hist (BulkUpdateRecord L h zoneID1 records) = run w hist (BulkUpdateRecord L h zoneID2 records)).
Proof. repeat split. Qed.

(** ** Authentication and base URL *)

(** Every request a program can send satisfies [P]. *)
Fixpoint all_reqs {A : Type} (P : request -> Prop) (m : io A) : Prop :=
  match m with
  | Ret _ => True
  | Do r k => P r /\ forall x, all_reqs P (k x)
  | ReadFile _ k => forall x, all_reqs P (k x)
  end.

Lemma all_reqs_run {A : Type} (P : request -> Prop) (m : io A) (w : world) (hist : list request) :
  all_reqs P m -> Forall P (fst (run w hist m)).
Proof.
  revert hist. induction m as [a | r k IH | p k IH]; intros hist Hm; simpl in *.
  - constructor.
  - destruct Hm as [Hr Hk].
    specialize (IH (transport w hist r) (hist ++ [r])%list (Hk _)).
    destruct (run w (hist ++ [r])%list (k (transport w hist r))). simpl in *.
    constructor; assumption.
  - apply IH, Hm.
Qed.

Lemma all_reqs_bind {A B : Type} (P : request -> Prop) (m : io A) (f : A -> io B) :
  all_reqs P m -> (forall a, all_reqs P (f a)) -> all_reqs P (bind m f).
Proof.
  induction m as [a | r k IH | p k IH]; simpl; intros Hm Hf.
  - apply Hf.
  - destruct Hm as [Hr Hk]. split; [assumption | intros x; apply IH; auto].
  - intros x. apply IH; auto.
Qed.

(** A request is authenticated for [h] and addressed below its base URL. *)
Definition authenticated (h : Hetzner) (r : request) : Prop :=
  header_Get (req_header r) "Auth-API-Token" = APIKey h /\
  exists s, req_url r = apiBaseURL h ++ s.

Lemma header_Get_Set (hd : Header) (k v : string) : header_Get (header_Set hd k v) k = v.
Proof.
  unfold header_Get, header_Set, header_lookup. simpl.
  rewrite String.eqb_refl. reflexivity.
Qed.

Lemma authenticated_set_auth (h : Hetzner) (r : request) :
  (exists s, req_url r = apiBaseURL h ++ s) ->
  authenticated h (set_header r "Auth-API-Token" (APIKey h)).
Proof.
  intros Hs. split; [apply header_Get_Set | exact Hs].
Qed.

Lemma all_reqs_err_of {A : Type} (P : request -> Prop) (m : io (A * option goerr)) :
  all_reqs P m -> all_reqs P (err_of m).
Proof. intros Hm. apply all_reqs_bind; [exact Hm | intros; exact I]. Qed.

Ltac reqs_tac :=
  repeat match goal with
  | |- all_reqs _ (Ret _) => exact I
  | |- all_reqs _ (Do _ _) =>
      split; [apply authenticated_set_auth; eexists; reflexivity | intros ?]
  | |- all_reqs _ (ReadFile _ _) => intros ?
  | |- forall _, _ => intros ?
  | |- all_reqs _ (send_expect _ _) => unfold send_expect
  | |- context [new_request_check ?L ?m ?u] => destruct (new_request_check L m u)
  | |- _ => progress cbn beta iota zeta
  | |- all_reqs _ (match ?x with _ => _ end) => destruct x
  | |- all_reqs _ ((fun _ => _) _) => cbv beta
  | |- all_reqs _ (let _ := _ in _) => cbv zeta
  end.

Section Authenticated.

Context (L : GoLib) (h : Hetzner).

Lemma FindAllZones_auth : all_reqs (authenticated h) (FindAllZones L h).
Proof. unfold FindAllZones, NewRequest. reqs_tac. Qed.

Lemma FindAllRecordsForZone_auth z : all_reqs (authenticated h) (FindAllRecordsForZone L h z).
Proof. unfold FindAllRecordsForZone, NewRequest. reqs_tac. Qed.

Lemma FindRecordsByName_auth z n : all_reqs (authenticated h) (FindRecordsByName L h z n).
Proof.
  apply all_reqs_bind; [apply FindAllRecordsForZone_auth |].
  intros [records [e |]]; exact I.
Qed.

Lemma UpdateRecord_auth z i t n v : all_reqs (authenticated h) (UpdateRecord L h z i t n v).
Proof. unfold UpdateRecord, NewRequest. reqs_tac. Qed.

Lemma CreateRecord_auth z t n v : all_reqs (authenticated h) (CreateRecord L h z t n v).
Proof. unfold CreateRecord, NewRequest. reqs_tac. Qed.

Lemma op_prog_auth (o : Op) : all_reqs (authenticated h) (op_prog L h o).
Proof.
  destruct o; simpl.
  - apply all_reqs_err_of, FindAllZones_auth.
  - apply all_reqs_err_of, all_reqs_bind; [apply FindAllZones_auth |].
    intros [zones [e |]]; [exact I |]. simpl. destruct (FindZoneID_loop L domainName zones); exact I.
  - apply all_reqs_err_of, FindAllRecordsForZone_auth.
  - apply all_reqs_err_of, FindRecordsByName_auth.
  - apply all_reqs_err_of, all_reqs_bind; [apply FindAllRecordsForZone_auth |].
    intros [records [e |]]; [exact I |]. simpl. destruct (FindRecordById_loop recordId records); exact I.
  - apply UpdateRecord_auth.
  - apply CreateRecord_auth.
  - unfold BulkCreateRecord, NewRequest. reqs_tac.
  - unfold BulkUpdateRecord, NewRequest. reqs_tac.
  - apply all_reqs_bind; [apply FindRecordsByName_auth |].
    intros [records [e |]]; [exact I |].
    destruct records; [apply CreateRecord_auth | apply UpdateRecord_auth].
  - unfold DeleteRecord, NewRequest. reqs_tac.
  - apply all_reqs_err_of. unfold ExportZoneFile, NewRequest. reqs_tac.
  - unfold ValidateZoneFile, NewRequest. reqs_tac.
  - unfold ImportZoneFile, NewRequest. reqs_tac.
  - apply all_reqs_err_of. unfold FindAllPrimaryServers, NewRequest. reqs_tac.
  - unfold CreatePrimaryServer, NewRequest. reqs_tac.
  - unfold UpdatePrimaryServer, NewRequest. reqs_tac.
  - apply all_reqs_err_of. unfold GetPrimaryServer, primary_server_call, NewRequest. reqs_tac.
  - apply all_reqs_err_of. unfold DeletePrimaryServer, primary_server_call, NewRequest. reqs_tac.
Qed.

End Authenticated.

(** C9: every request any operation sends carries the header
    [Auth-API-Token] with the client's API key, and its URL starts with
    [apiBaseURL], which is the configured base URL, or
    "https://dns.hetzner.com/api/v1" exactly when that is empty. *)
Theorem requests_authenticated (L : GoLib) (h : Hetzner) (o : Op) (w : world) (hist : list request) :
  Forall (fun r => header_Get (req_header r) "Auth-API-Token" = APIKey h /\
                   exists s, req_url r = apiBaseURL h ++ s)
         (fst (run w hist (op_prog L h o))) /\
  apiBaseURL h = (if String.eqb (APIBaseUrl h) "" then "https://dns.hetzner.com/api/v1"
                  else APIBaseUrl h).
Proof.
  split.
  - apply (all_reqs_run (authenticated h)), op_prog_auth.
  - unfold apiBaseURL. destruct (APIBaseUrl h) as [| c s]; reflexivity.
Qed.

(** ** Request shapes *)

(** [m] sends at most [n] requests, each satisfying [P]. *)
Fixpoint sends {A : Type} (P : request -> Prop) (n : nat) (m : io A) : Prop :=
  match m with
  | Ret _ => True
  | Do r k => match n with O => False | S n' => P r /\ forall x, sends P n' (k x) end
  | ReadFile _ k => forall x, sends P n (k x)
  end.

Lemma sends_run {A : Type} (P : request -> Prop) (n : nat) (m : io A) (w : world) (hist : list request) :
  sends P n m -> (length (fst (run w hist m)) <= n)%nat /\ Forall P (fst (run w hist m)).
Proof.
  revert n hist. induction m as [a | r k IH | p k IH]; intros n hist Hm; simpl in *.
  - split; [lia | constructor].
  - destruct n as [| n']; [contradiction |]. destruct Hm as [Hr Hk].
    specialize (IH (transport w hist r) n' (hist ++ [r])%list (Hk _)).
    destruct (run w (hist ++ [r])%list (k (transport w hist r))). simpl in *.
    destruct IH as [Hl Hf]. split; [lia | constructor; assumption].
  - apply IH, Hm.
Qed.

Lemma sends_weaken {A : Type} (P Q : request -> Prop) (n n' : nat) (m : io A) :
  (forall r, P r -> Q r) -> (n <= n')%nat -> sends P n m -> sends Q n' m.
Proof.
  intros HPQ. revert n n'. induction m as [a | r k IH | p k IH]; simpl; intros n n' Hle Hm.
  - exact I.
  - destruct n as [| n]; [contradiction |]. destruct n' as [| n']; [lia |].
    destruct Hm as [Hr Hk]. split; [auto | intros x; apply (IH x n); [lia | auto]].
  - intros x. apply (IH x n); auto.
Qed.

Lemma sends_bind {A B : Type} (P : request -> Prop) (n k : nat) (m : io A) (f : A -> io B) :
  sends P n m -> (forall a, sends P k (f a)) -> sends P (n + k) (bind m f).
Proof.
  revert n. induction m as [a | r c IH | p c IH]; simpl; intros n Hm Hf.
  - apply (sends_weaken P P k (n + k)); [auto | lia | apply Hf].
  - destruct n as [| n']; [contradiction |]. destruct Hm as [Hr Hc].
    split; [assumption | intros x; apply IH; auto].
  - intros x. apply IH; auto.
Qed.

Ltac sends_tac solve_req :=
  repeat match goal with
  | |- sends _ _ (Ret _) => exact I
  | |- sends _ (S _) (Do _ _) => split; [solve_req | intros ?]
  | |- sends _ _ (ReadFile _ _) => intros ?
  | |- forall _, _ => intros ?
  | |- sends _ _ (send_expect _ _) => unfold send_expect
  | |- context [new_request_check ?L ?m ?u] => destruct (new_request_check L m u)
  | |- _ => progress cbn beta iota zeta
  | |- sends _ _ (match ?x with _ => _ end) => destruct x
  end.

(** The method and URL of the one request each operation other than
    [CreateOrUpdateRecord] sends. *)
Definition endpoint (h : Hetzner) (o : Op) : option (string * string) :=
  let base := apiBaseURL h in
  match o with
  | OpFindAllZones => Some ("GET", base ++ "/zones")
  | OpFindZoneID _ => Some ("GET", base ++ "/zones")
  | OpFindAllRecordsForZone z => Some ("GET", base ++ "/records?zone_id=" ++ z)
  | OpFindRecordsByName z _ => Some ("GET", base ++ "/records?zone_id=" ++ z)
  | OpFindRecordById z _ => Some ("GET", base ++ "/records?zone_id=" ++ z)
  | OpUpdateRecord _ i _ _ _ => Some ("PUT", base ++ "/records/" ++ i)
  | OpCreateRecord _ _ _ _ => Some ("POST", base ++ "/records")
  | OpBulkCreateRecord _ _ => Some ("POST", base ++ "/records/bulk")
  | OpBulkUpdateRecord _ _ => Some ("PUT", base ++ "/records/bulk")
  | OpCreateOrUpdateRecord _ _ _ _ => None
  | OpDeleteRecord i => Some ("DELETE", base ++ "/records/" ++ i)
  | OpExportZoneFile z => Some ("GET", base ++ "/zones/" ++ z ++ "/export")
  | OpValidateZoneFile _ => Some ("POST", base ++ "/zones/file/validate")
  | OpImportZoneFile z _ => Some ("POST", base ++ "/zones/" ++ z ++ "/import")
  | OpFindAllPrimaryServers => Some ("GET", base ++ "/primary_servers")
  | OpCreatePrimaryServer _ _ _ => Some ("POST", base ++ "/primary_servers")
  | OpUpdatePrimaryServer _ _ _ _ => Some ("PUT", base ++ "/primary_servers")
  | OpGetPrimaryServer i => Some ("GET", base ++ "/primary_servers/" ++ i)
  | OpDeletePrimaryServer i => Some ("DELETE", base ++ "/primary_servers/" ++ i)
  end.

Definition at_endpoint (m u : string) (r : request) : Prop := req_method r = m /\ req_url r = u.

Lemma err_of_sends {A : Type} (P : request -> Prop) (n : nat) (m : io (A * option goerr)) :
  sends P n m -> sends P n (err_of m).
Proof.
  intros Hm. rewrite <- (Nat.add_0_r n). apply sends_bind; [exact Hm | intros; exact I].
Qed.

Ltac endpoint_req := cbv beta; split; reflexivity.

Lemma FindAllRecordsForZone_sends L h z :
  sends (at_endpoint "GET" (apiBaseURL h ++ "/records?zone_id=" ++ z)) 1 (FindAllRecordsForZone L h z).
Proof. unfold FindAllRecordsForZone, NewRequest. sends_tac endpoint_req. Qed.

Lemma FindAllZones_sends L h : sends (at_endpoint "GET" (apiBaseURL h ++ "/zones")) 1 (FindAllZones L h).
Proof. unfold FindAllZones, NewRequest. sends_tac endpoint_req. Qed.

(** Each operation other than [CreateOrUpdateRecord] sends at most one
    request, with the method and to the URL of [endpoint]. *)
Theorem op_endpoint (L : GoLib) (h : Hetzner) (o : Op) (w : world) (hist : list request)
    (meth url : string) (He : endpoint h o = Some (meth, url)) :
  (length (fst (run w hist (op_prog L h o))) <= 1)%nat /\
  Forall (fun r => req_method r = meth /\ req_url r = url) (fst (run w hist (op_prog L h o))).
Proof.
  apply (sends_run (at_endpoint meth url)).
  destruct o; simpl in He; injection He as <- <- || discriminate He; simpl.
  - apply err_of_sends, FindAllZones_sends.
  - apply err_of_sends. rewrite <- (Nat.add_0_r 1). apply sends_bind; [apply FindAllZones_sends |].
    intros [zs [e |]]; [exact I |]. simpl. destruct (FindZoneID_loop L domainName zs); exact I.
  - apply err_of_sends, FindAllRecordsForZone_sends.
  - apply err_of_sends. rewrite <- (Nat.add_0_r 1). apply sends_bind; [apply FindAllRecordsForZone_sends |].
    intros [rs [e |]]; exact I.
  - apply err_of_sends. rewrite <- (Nat.add_0_r 1). apply sends_bind; [apply FindAllRecordsForZone_sends |].
    intros [rs [e |]]; [exact I |]. simpl. destruct (FindRecordById_loop recordId rs); exact I.
  - unfold UpdateRecord, NewRequest. sends_tac endpoint_req.
  - unfold CreateRecord, NewRequest. sends_tac endpoint_req.
  - unfold BulkCreateRecord, NewRequest. sends_tac endpoint_req.
  - unfold BulkUpdateRecord, NewRequest. sends_tac endpoint_req.
  - unfold DeleteRecord, NewRequest. sends_tac endpoint_req.
  - apply err_of_sends. unfold ExportZoneFile, NewRequest. sends_tac endpoint_req.
  - unfold ValidateZoneFile, NewRequest. sends_tac endpoint_req.
  - unfold ImportZoneFile, NewRequest. sends_tac endpoint_req.
  - apply err_of_sends. unfold FindAllPrimaryServers, NewRequest. sends_tac endpoint_req.
  - unfold CreatePrimaryServer, NewRequest. sends_tac endpoint_req.
  - unfold UpdatePrimaryServer, NewRequest. sends_tac endpoint_req.
  - apply err_of_sends. unfold GetPrimaryServer, primary_server_call, NewRequest. sends_tac endpoint_req.
  - apply err_of_sends. unfold DeletePrimaryServer, primary_server_call, NewRequest. sends_tac endpoint_req.
Qed.

Lemma op_endpoint_witness :
  endpoint example_client (OpDeleteRecord "r1") = Some ("DELETE", "https://dns.hetzner.com/api/v1/records/r1") /\
  Forall (fun r => req_method r = "DELETE" /\ req_url r = "https://dns.hetzner.com/api/v1/records/r1")
    (fst (run (answering internal_error) [] (op_prog example_lib example_client (OpDeleteRecord "r1")))).
Proof.
  split; [reflexivity |].
  exact (proj2 (op_endpoint example_lib example_client (OpDeleteRecord "r1") (answering internal_error) []
                  "DELETE" "https://dns.hetzner.com/api/v1/records/r1" eq_refl)).
Defined.


(** When the transport fails with [e] (and building and encoding the
    request and reading the zone file succeed), every operation sends
    exactly one request, does not retry, and returns
    "failed to execute request: " wrapping [e]. *)
Theorem transport_error_wrapped (L : GoLib) (h : Hetzner) (o : Op) (w : world) (hist : list request)
    (e : goerr)
    (Hn : forall m u, new_request_check L m u = None)
    (Hmu : forall x, exists b, marshal_update L x = inr b)
    (Hmb : forall x, exists b, marshal_bulk L x = inr b)
    (Hmp : forall x, exists b, marshal_primary L x = inr b)
    (Hf : forall p, snd (files w p) = None)
    (Ht : forall hs r, transport w hs r = DoErr e) :
  exists r, run w hist (op_prog L h o) = ([r], Some (EWrap "failed to execute request: " e)).
Proof.
  destruct o; simpl op_prog;
    unfold err_of, CreateOrUpdateRecord, FindZoneID, FindRecordsByName, FindRecordById,
      FindAllZones, FindAllRecordsForZone, UpdateRecord, CreateRecord, BulkCreateRecord,
      BulkUpdateRecord, DeleteRecord, ExportZoneFile, ValidateZoneFile, ImportZoneFile,
      FindAllPrimaryServers, CreatePrimaryServer, UpdatePrimaryServer, GetPrimaryServer,
      DeletePrimaryServer, primary_server_call, send_expect, NewRequest;
    repeat first
      [ rewrite !Hn
      | match goal with
        | |- context [marshal_update L ?x] => destruct (Hmu x) as [? ->]
        | |- context [marshal_bulk L ?x] => destruct (Hmb x) as [? ->]
        | |- context [marshal_primary L ?x] => destruct (Hmp x) as [? ->]
        | |- context [files w ?p] =>
            let E := fresh in pose proof (Hf p) as E; destruct (files w p); simpl in E; subst
        end
      | rewrite !Ht
      | progress simpl ];
    eexists; reflexivity.
Qed.

Definition failing_transport : world :=
  mkWorld (fun _ _ => DoErr (ELib "dial tcp: connection refused")) (fun _ => ("", None)).

Lemma transport_error_wrapped_witness :
  exists r, run failing_transport [] (op_prog example_lib example_client (OpCreateOrUpdateRecord "z1" "A" "www" "v"))
            = ([r], Some (EWrap "failed to execute request: " (ELib "dial tcp: connection refused"))).
Proof.
  apply (transport_error_wrapped example_lib example_client _ failing_transport []);
    try (intros; eexists; reflexivity); reflexivity.
Defined.

(** When [http.NewRequest] fails with [e] (and encoding and reading the
    zone file succeed), no operation sends anything, and each returns
    "failed to create request: " wrapping [e]. *)
Theorem new_request_error_wrapped (L : GoLib) (h : Hetzner) (o : Op) (w : world) (hist : list request)
    (e : goerr)
    (Hn : forall m u, new_request_check L m u = Some e)
    (Hmu : forall x, exists b, marshal_update L x = inr b)
    (Hmb : forall x, exists b, marshal_bulk L x = inr b)
    (Hmp : forall x, exists b, marshal_primary L x = inr b)
    (Hf : forall p, snd (files w p) = None) :
  run w hist (op_prog L h o) = ([], Some (EWrap "failed to create request: " e)).
Proof.
  destruct o; simpl op_prog;
    unfold err_of, CreateOrUpdateRecord, FindZoneID, FindRecordsByName, FindRecordById,
      FindAllZones, FindAllRecordsForZone, UpdateRecord, CreateRecord, BulkCreateRecord,
      BulkUpdateRecord, DeleteRecord, ExportZoneFile, ValidateZoneFile, ImportZoneFile,
      FindAllPrimaryServers, CreatePrimaryServer, UpdatePrimaryServer, GetPrimaryServer,
      DeletePrimaryServer, primary_server_call, send_expect, NewRequest;
    repeat first
      [ rewrite !Hn
      | match goal with
        | |- context [marshal_update L ?x] => destruct (Hmu x) as [? ->]
        | |- context [marshal_bulk L ?x] => destruct (Hmb x) as [? ->]
        | |- context [marshal_primary L ?x] => destruct (Hmp x) as [? ->]
        | |- context [files w ?p] =>
            let E := fresh in pose proof (Hf p) as E; destruct (files w p); simpl in E; subst
        end
      | progress simpl ];
    reflexivity.
Qed.

Definition strict_lib : GoLib :=
  mkGoLib (fun _ _ => Some (ELib "net/url: invalid control character in URL"))
          (fun _ => inr "{}") (fun _ => inr "{}") (fun _ => inr "{}")
          (fun _ => inr []) (fun _ => inr [])
          (fun _ => inr zero_PrimaryServers) (fun _ => inr zero_PrimaryServer)
          (fun _ _ => false).

Lemma new_request_error_wrapped_witness :
  run (answering internal_error) [] (op_prog strict_lib example_client (OpImportZoneFile "z1" "zone.txt"))
  = ([], Some (EWrap "failed to create request: " (ELib "net/url: invalid control character in URL"))).
Proof.
  apply (new_request_error_wrapped strict_lib example_client _ (answering internal_error) []);
    try (intros; eexists; reflexivity); reflexivity.
Defined.

(** The operations that send a JSON body built with [json.Marshal]. *)
Definition json_body_op (o : Op) : bool :=
  match o with
  | OpUpdateRecord _ _ _ _ _ | OpCreateRecord _ _ _ _ | OpBulkCreateRecord _ _
  | OpBulkUpdateRecord _ _ | OpCreatePrimaryServer _ _ _ | OpUpdatePrimaryServer _ _ _ _ => true
  | _ => false
  end.

(** When [json.Marshal] fails with [e], an operation with a JSON body sends
    nothing and returns "failed to marshal request body: " wrapping [e]. *)
Theorem marshal_error_wrapped (L : GoLib) (h : Hetzner) (o : Op) (w : world) (hist : list request)
    (e : goerr) (Ho : json_body_op o = true)
    (Hmu : forall x, marshal_update L x = inl e)
    (Hmb : forall x, marshal_bulk L x = inl e)
    (Hmp : forall x, marshal_primary L x = inl e) :
  run w hist (op_prog L h o) = ([], Some (EWrap "failed to marshal request body: " e)).
Proof.
  destruct o; try discriminate Ho; simpl op_prog;
    unfold UpdateRecord, CreateRecord, BulkCreateRecord, BulkUpdateRecord,
      CreatePrimaryServer, UpdatePrimaryServer;
    rewrite ?Hmu, ?Hmb, ?Hmp; reflexivity.
Qed.

Definition no_json_lib : GoLib :=
  mkGoLib (fun _ _ => None)
          (fun _ => inl (ELib "json: unsupported value"))
          (fun _ => inl (ELib "json: unsupported value"))
          (fun _ => inl (ELib "json: unsupported value"))
          (fun _ => inr []) (fun _ => inr [])
          (fun _ => inr zero_PrimaryServers) (fun _ => inr zero_PrimaryServer)
          (fun _ _ => false).

Lemma marshal_error_wrapped_witness :
  run (answering internal_error) [] (op_prog no_json_lib example_client (OpBulkCreateRecord "z1" []))
  = ([], Some (EWrap "failed to marshal request body: " (ELib "json: unsupported value"))).
Proof.
  apply marshal_error_wrapped; reflexivity.
Defined.

(** When reading the zone file fails with [e], [ValidateZoneFile] and
    [ImportZoneFile] send nothing and return "failed to read zone file: "
    wrapping [e]. *)
Theorem zone_file_read_error (L : GoLib) (h : Hetzner) (w : world) (hist : list request)
    (zoneID zoneFile data : string) (e : goerr)
    (Hf : files w zoneFile = (data, Some e)) :
  run w hist (ValidateZoneFile L h zoneFile) = ([], Some (EWrap "failed to read zone file: " e)) /\
  run w hist (ImportZoneFile L h zoneID zoneFile) = ([], Some (EWrap "failed to read zone file: " e)).
Proof.
  unfold ValidateZoneFile, ImportZoneFile. simpl. rewrite Hf. split; reflexivity.
Qed.

Lemma zone_file_read_error_witness :
  run (mkWorld (fun _ _ => DoResp internal_error) (fun _ => ("", Some (ELib "open zone.txt: no such file"))))
      [] (ValidateZoneFile example_lib example_client "zone.txt")
  = ([], Some (EWrap "failed to read zone file: " (ELib "open zone.txt: no such file"))).
Proof.
  exact (proj1 (zone_file_read_error example_lib example_client
    (mkWorld (fun _ _ => DoResp internal_error) (fun _ => ("", Some (ELib "open zone.txt: no such file"))))
    [] "z1" "zone.txt" "" _ eq_refl)).
Defined.

(** The zone-file operations pass the file's bytes through unparsed:
    [ValidateZoneFile] and [ImportZoneFile] send them as the body of a
    request with [Content-Type: text/plain]. *)
Theorem zone_file_request (L : GoLib) (h : Hetzner) (w : world) (hist : list request)
    (zoneID zoneFile data : string)
    (Hf : files w zoneFile = (data, None)) :
  Forall (fun r => req_body r = Some data /\ header_Get (req_header r) "Content-Type" = "text/plain")
         (fst (run w hist (ValidateZoneFile L h zoneFile))) /\
  Forall (fun r => req_body r = Some data /\ header_Get (req_header r) "Content-Type" = "text/plain")
         (fst (run w hist (ImportZoneFile L h zoneID zoneFile))).
Proof.
  unfold ValidateZoneFile, ImportZoneFile, NewRequest, send_expect. simpl. rewrite Hf.
  split; destruct (new_request_check L _ _); simpl; try apply Forall_nil;
    destruct (transport w hist _) as [? | resp]; try destruct (negb _); simpl;
    repeat constructor.
Qed.

Lemma zone_file_request_witness :
  fst (run (mkWorld (fun _ _ => DoResp internal_error) (fun _ => ("@ 3600 IN SOA ns1 admin 1 2 3 4 5", None)))
           [] (ImportZoneFile example_lib example_client "z1" "zone.txt")) <> [] /\
  Forall (fun r => req_body r = Some "@ 3600 IN SOA ns1 admin 1 2 3 4 5" /\
                   header_Get (req_header r) "Content-Type" = "text/plain")
    (fst (run (mkWorld (fun _ _ => DoResp internal_error) (fun _ => ("@ 3600 IN SOA ns1 admin 1 2 3 4 5", None)))
              [] (ImportZoneFile example_lib example_client "z1" "zone.txt"))).
Proof.
  split; [discriminate |].
  exact (proj2 (zone_file_request example_lib example_client
    (mkWorld (fun _ _ => DoResp internal_error) (fun _ => ("@ 3600 IN SOA ns1 admin 1 2 3 4 5", None)))
    [] "z1" "zone.txt" _ eq_refl)).
Defined.

(** On a 200 whose body does not decode, the decoding operations return
    their zero value ([]/empty struct) with "failed to decode response
    body: " wrapping the decoder's error: nothing is partially decoded. *)
Theorem decode_error_zero_value (L : GoLib) (h : Hetzner) (w : world) (hist : list request)
    (zoneID id : string) (resp : response) (e1 e2 e3 e4 : goerr)
    (Hn : forall m u, new_request_check L m u = None)
    (Ht : forall hs r, transport w hs r = DoResp resp)
    (Hs : resp_StatusCode resp = 200%Z)
    (Hz : decode_zones L (resp_Body resp) = inl e1)
    (Hr : decode_records L (resp_Body resp) = inl e2)
    (Hps : decode_primary_servers L (resp_Body resp) = inl e3)
    (Hp : decode_primary_server L (resp_Body resp) = inl e4) :
  snd (run w hist (FindAllZones L h)) = ([], Some (EWrap "failed to decode response body: " e1)) /\
  snd (run w hist (FindAllRecordsForZone L h zoneID)) =
    ([], Some (EWrap "failed to decode response body: " e2)) /\
  snd (run w hist (FindAllPrimaryServers L h)) =
    (zero_PrimaryServers, Some (EWrap "failed to decode response body: " e3)) /\
  snd (run w hist (GetPrimaryServer L h id)) =
    (zero_PrimaryServer, Some (EWrap "failed to decode response body: " e4)) /\
  snd (run w hist (DeletePrimaryServer L h id)) =
    (zero_PrimaryServer, Some (EWrap "failed to decode response body: " e4)).
Proof.
  unfold FindAllZones, FindAllRecordsForZone, FindAllPrimaryServers, GetPrimaryServer,
    DeletePrimaryServer, primary_server_call, NewRequest, StatusOK.
  rewrite !Hn. simpl. rewrite !Ht, Hs. simpl. rewrite Hz, Hr, Hps, Hp.
  repeat split.
Qed.

Definition bad_json_lib : GoLib :=
  mkGoLib (fun _ _ => None)
          (fun _ => inr "{}") (fun _ => inr "{}") (fun _ => inr "{}")
          (fun _ => inl (ELib "unexpected EOF")) (fun _ => inl (ELib "unexpected EOF"))
          (fun _ => inl (ELib "unexpected EOF")) (fun _ => inl (ELib "unexpected EOF"))
          (fun _ _ => false).

Lemma decode_error_zero_value_witness :
  snd (run (answering (mkResponse 200 (mkBody "{zones: [" None))) [] (FindAllZones bad_json_lib example_client))
  = ([], Some (EWrap "failed to decode response body: " (ELib "unexpected EOF"))).
Proof.
  exact (proj1 (decode_error_zero_value bad_json_lib example_client
                  (answering (mkResponse 200 (mkBody "{zones: [" None))) [] "z1" "p1" _ _ _ _ _
                  (fun _ _ => eq_refl) (fun _ _ => eq_refl) eq_refl eq_refl eq_refl eq_refl eq_refl)).
Defined.

(** The status each operation that diagnoses failures with
    [createApiErrorMessage] expects ([DeleteRecord] and [ExportZoneFile]
    build their own message). *)
Definition expected_status (o : Op) : option Z :=
  match o with
  | OpCreateRecord _ _ _ _ => Some StatusCreated
  | OpDeleteRecord _ | OpExportZoneFile _ => None
  | _ => Some StatusOK
  end.

(** When the server answers every request with a status other than the
    one expected, an operation sends one request (even
    [CreateOrUpdateRecord], whose listing fails) and returns
    [createApiErrorMessage] of that response. *)
Theorem unexpected_status_api_error (L : GoLib) (h : Hetzner) (o : Op) (w : world) (hist : list request)
    (resp : response) (s : Z)
    (Hn : forall m u, new_request_check L m u = None)
    (Hmu : forall x, exists b, marshal_update L x = inr b)
    (Hmb : forall x, exists b, marshal_bulk L x = inr b)
    (Hmp : forall x, exists b, marshal_primary L x = inr b)
    (Hf : forall p, snd (files w p) = None)
    (Ht : forall hs r, transport w hs r = DoResp resp)
    (Ho : expected_status o = Some s) (Hs : resp_StatusCode resp <> s) :
  exists r, run w hist (op_prog L h o) = ([r], Some (createApiErrorMessage resp)).
Proof.
  apply Z.eqb_neq in Hs.
  destruct o; simpl in Ho; injection Ho as <- || discriminate Ho; simpl op_prog;
    unfold err_of, CreateOrUpdateRecord, FindZoneID, FindRecordsByName, FindRecordById,
      FindAllZones, FindAllRecordsForZone, UpdateRecord, CreateRecord, BulkCreateRecord,
      BulkUpdateRecord, ValidateZoneFile, ImportZoneFile,
      FindAllPrimaryServers, CreatePrimaryServer, UpdatePrimaryServer, GetPrimaryServer,
      DeletePrimaryServer, primary_server_call, send_expect, NewRequest;
    repeat first
      [ rewrite !Hn
      | match goal with
        | |- context [marshal_update L ?x] => destruct (Hmu x) as [? ->]
        | |- context [marshal_bulk L ?x] => destruct (Hmb x) as [? ->]
        | |- context [marshal_primary L ?x] => destruct (Hmp x) as [? ->]
        | |- context [files w ?p] =>
            let E := fresh in pose proof (Hf p) as E; destruct (files w p); simpl in E; subst
        end
      | rewrite !Ht
      | rewrite Hs
      | progress simpl ];
    eexists; reflexivity.
Qed.

Lemma unexpected_status_api_error_witness :
  exists r, run (answering (mkResponse 200 (mkBody "" None))) []
                (op_prog example_lib example_client (OpCreateRecord "z1" "A" "www" "1.2.3.4"))
            = ([r], Some (createApiErrorMessage (mkResponse 200 (mkBody "" None)))).
Proof.
  apply (unexpected_status_api_error example_lib example_client _ _ [] _ 201);
    try (intros; eexists; reflexivity); try reflexivity; discriminate.
Defined.

(** The lookups hand a failed listing's error back unchanged, with their
    zero value, and send nothing more. *)
Theorem lookups_propagate_listing_error (L : GoLib) (w : world) (hist : list request) (h : Hetzner)
    (zoneID query : string) (tr : list request) (e : goerr) :
  (forall zones, run w hist (FindAllZones L h) = (tr, (zones, Some e)) ->
     run w hist (FindZoneID L h query) = (tr, ("", Some e))) /\
  (forall records, run w hist (FindAllRecordsForZone L h zoneID) = (tr, (records, Some e)) ->
     run w hist (FindRecordsByName L h zoneID query) = (tr, ([], Some e)) /\
     run w hist (FindRecordById L h zoneID query) = (tr, (zero_RecordResponse, Some e))).
Proof.
  split; [intros zones Hl | intros records Hl; split];
    unfold FindZoneID, FindRecordsByName, FindRecordById;
    rewrite run_bind, Hl; simpl; now rewrite app_nil_r.
Qed.

Lemma lookups_propagate_listing_error_witness :
  run (answering internal_error) [] (FindAllZones example_lib example_client) =
    (fst (run (answering internal_error) [] (FindAllZones example_lib example_client)),
     ([], Some (createApiErrorMessage internal_error))) /\
  snd (run (answering internal_error) [] (FindZoneID example_lib example_client "example.com")) =
    ("", Some (createApiErrorMessage internal_error)).
Proof.
  split; [reflexivity |].
  rewrite (proj1 (lookups_propagate_listing_error example_lib (answering internal_error) [] example_client
                    "z1" "example.com" _ _) [] eq_refl).
  reflexivity.
Defined.

(** On a 200, [ExportZoneFile] returns the response body as read by
    [io.ReadAll], unparsed: its bytes, and the read error, if any, with the
    bytes read before it. *)
Theorem ExportZoneFile_raw_body (L : GoLib) (h : Hetzner) (w : world) (hist : list request)
    (zoneID : string) (resp : response)
    (Hn : new_request_check L "GET" (apiBaseURL h ++ "/zones/" ++ zoneID ++ "/export") = None)
    (Ht : forall r, transport w hist r = DoResp resp)
    (Hs : resp_StatusCode resp = 200%Z) :
  snd (run w hist (ExportZoneFile L h zoneID)) = (body_data (resp_Body resp), body_err (resp_Body resp)).
Proof.
  unfold ExportZoneFile, NewRequest. rewrite Hn. simpl. rewrite Ht, Hs. reflexivity.
Qed.

Lemma ExportZoneFile_raw_body_witness :
  snd (run (answering (mkResponse 200 (mkBody "$ORIGIN example.com." (Some (ELib "unexpected EOF"))))) []
           (ExportZoneFile example_lib example_client "z1"))
  = ("$ORIGIN example.com.", Some (ELib "unexpected EOF")).
Proof.
  exact (ExportZoneFile_raw_body example_lib example_client
           (answering (mkResponse 200 (mkBody "$ORIGIN example.com." (Some (ELib "unexpected EOF"))))) []
           "z1" _ eq_refl (fun _ => eq_refl) eq_refl).
Defined.

(** ** The text of API errors *)

Definition is_digit (c : ascii) : bool := ((48 <=? N_of_ascii c) && (N_of_ascii c <=? 57))%N.

Fixpoint all_digits (s : string) : bool :=
  match s with
  | EmptyString => true
  | String c s' => is_digit c && all_digits s'
  end.

(** The number a string of decimal digits denotes, after the digits [a]. *)
Fixpoint dec_val (a : N) (s : string) : N :=
  match s with
  | EmptyString => a
  | String c s' => dec_val (a * 10 + (N_of_ascii c - 48))%N s'
  end.

Lemma digit_char (n : N) : N_of_ascii (ascii_of_N (48 + n mod 10)) = (48 + n mod 10)%N.
Proof.
  apply N_ascii_embedding. pose proof (N.mod_lt n 10 ltac:(discriminate)). lia.
Qed.

Lemma utoa_aux_digits (fuel : nat) (n : N) (acc : string) :
  all_digits acc = true -> all_digits (utoa_aux fuel n acc) = true.
Proof.
  revert n acc. induction fuel as [| f IH]; intros n acc Hacc; cbn [utoa_aux]; [exact Hacc |].
  assert (Hd : all_digits (String (ascii_of_N (48 + n mod 10)) acc) = true).
  { cbn [all_digits]. rewrite Hacc, andb_true_r. unfold is_digit. rewrite digit_char.
    pose proof (N.mod_lt n 10 ltac:(discriminate)). generalize dependent (n mod 10)%N. intros r Hr.
    apply andb_true_intro; split; apply N.leb_le; lia. }
  destruct (n <? 10)%N; [exact Hd | apply IH, Hd].
Qed.

Lemma utoa_aux_val (fuel : nat) : forall (n : N) (acc : string) (a : N),
  (n < 10 ^ N.of_nat fuel)%N ->
  exists k, dec_val a (utoa_aux fuel n acc) = dec_val (a * 10 ^ k + n)%N acc.
Proof.
  induction fuel as [| f IH]; intros n acc a Hn; cbn [utoa_aux].
  - exists 0%N. cbn [dec_val]. simpl in Hn. replace n with 0%N by lia. f_equal. lia.
  - assert (Hmod := N.mod_lt n 10 ltac:(discriminate)). assert (Hdm := N.div_mod n 10 ltac:(discriminate)).
    destruct (n <? 10)%N eqn:E.
    + apply N.ltb_lt in E. exists 1%N. cbn [dec_val]. rewrite digit_char.
      rewrite N.mod_small by lia. f_equal. lia.
    + apply N.ltb_ge in E.
      assert (Hq : (n / 10 < 10 ^ N.of_nat f)%N).
      { apply N.Div0.div_lt_upper_bound.
        rewrite Nat2N.inj_succ, N.pow_succ_r' in Hn. exact Hn. }
      destruct (IH (n / 10)%N (String (ascii_of_N (48 + n mod 10)) acc) a Hq) as [k Hk].
      exists (k + 1)%N. rewrite Hk. cbn [dec_val]. rewrite digit_char. f_equal.
      rewrite N.pow_add_r.
      rewrite (N.add_comm 48), N.add_sub.
      rewrite N.pow_1_r.
      transitivity (a * 10 ^ k * 10 + (10 * (n / 10) + n mod 10))%N; [ring | rewrite <- Hdm; ring].
Qed.

Lemma pos_lt_pow_size (p : positive) : (N.pos p < 2 ^ N.of_nat (Pos.size_nat p))%N.
Proof.
  induction p as [p IH | p IH |]; simpl Pos.size_nat; [| | simpl; lia];
    rewrite Nat2N.inj_succ, N.pow_succ_r'; lia.
Qed.

Lemma utoa_val (n : N) : dec_val 0 (utoa n) = n.
Proof.
  unfold utoa.
  assert (Hb : (n < 10 ^ N.of_nat (S (N.size_nat n)))%N).
  { destruct n as [| p]; [simpl; lia |].
    simpl N.size_nat. pose proof (pos_lt_pow_size p) as Hp.
    assert (Hle : (2 ^ N.of_nat (Pos.size_nat p) <= 10 ^ N.of_nat (Pos.size_nat p))%N)
      by (apply N.pow_le_mono_l; lia).
    assert (Hle' : (10 ^ N.of_nat (Pos.size_nat p) <= 10 ^ N.of_nat (S (Pos.size_nat p)))%N)
      by (apply N.pow_le_mono_r; lia).
    lia. }
  destruct (utoa_aux_val _ n "" 0 Hb) as [k Hk]. rewrite Hk. simpl. lia.
Qed.

Lemma itoa_digits (z : Z) : (0 <= z)%Z -> all_digits (itoa z) = true.
Proof.
  intros Hz. unfold itoa. replace (z <? 0)%Z with false by (symmetry; apply Z.ltb_ge; lia).
  apply utoa_aux_digits. reflexivity.
Qed.

Lemma itoa_inj (z1 z2 : Z) : (0 <= z1)%Z -> (0 <= z2)%Z -> itoa z1 = itoa z2 -> z1 = z2.
Proof.
  intros H1 H2 E. unfold itoa in E.
  replace (z1 <? 0)%Z with false in E by (symmetry; apply Z.ltb_ge; lia).
  replace (z2 <? 0)%Z with false in E by (symmetry; apply Z.ltb_ge; lia).
  apply (f_equal (dec_val 0)) in E. rewrite !utoa_val in E.
  apply Z2N.inj; assumption.
Qed.

Lemma append_cancel_l (p x y : string) : p ++ x = p ++ y -> x = y.
Proof. induction p as [| c p IH]; simpl; [auto | intros E; injection E; auto]. Qed.

Lemma digits_colon_split (x y u v : string) :
  all_digits x = true -> all_digits y = true ->
  x ++ String ":" u = y ++ String ":" v -> x = y /\ u = v.
Proof.
  revert y. induction x as [| c x IH]; intros [| d y] Hx Hy E; simpl in *.
  - injection E. auto.
  - injection E as <- _. discriminate Hy.
  - injection E as -> _. discriminate Hx.
  - injection E as -> E.
    apply andb_prop in Hx as [_ Hx]. apply andb_prop in Hy as [_ Hy].
    destruct (IH y Hx Hy E) as [-> ->]. auto.
Qed.

(** The text [createApiErrorMessage] builds from a cleanly read body
    determines the response's status (for nonnegative codes) and its body;
    when reading the body fails, the read error itself is returned. *)
Theorem createApiErrorMessage_text (resp1 resp2 : response) :
  (body_err (resp_Body resp1) = None -> body_err (resp_Body resp2) = None ->
   (0 <= resp_StatusCode resp1)%Z -> (0 <= resp_StatusCode resp2)%Z ->
   Error (createApiErrorMessage resp1) = Error (createApiErrorMessage resp2) ->
   resp_StatusCode resp1 = resp_StatusCode resp2 /\
   body_data (resp_Body resp1) = body_data (resp_Body resp2)) /\
  (forall e, body_err (resp_Body resp1) = Some e -> createApiErrorMessage resp1 = e).
Proof.
  destruct resp1 as [s1 [b1 e1]], resp2 as [s2 [b2 e2]].
  cbn [resp_Body resp_StatusCode body_data body_err].
  split; [| intros e ->; reflexivity].
  intros -> -> H1 H2 E.
  cbn [Error createApiErrorMessage ReadAll resp_Body body_data body_err resp_StatusCode] in E.
  apply append_cancel_l in E.
  destruct (digits_colon_split _ _ _ _ (itoa_digits s1 H1) (itoa_digits s2 H2) E) as [Es Eb].
  injection Eb as Eb. split; [apply itoa_inj; assumption | exact Eb].
Qed.

Lemma createApiErrorMessage_text_witness :
  (resp_StatusCode internal_error = resp_StatusCode internal_error /\
   body_data (resp_Body internal_error) = body_data (resp_Body internal_error)).
Proof.
  apply (proj1 (createApiErrorMessage_text internal_error internal_error));
    try reflexivity; cbn; lia.
Defined.

(** Strings whose bytes are all below 128, and their lower-case form. *)
Fixpoint is_ascii_str (s : string) : bool :=
  match s with
  | EmptyString => true
  | String c s' => (nat_of_ascii c <? 128)%nat && is_ascii_str s'
  end.

Fixpoint lower_str (s : string) : string :=
  match s with
  | EmptyString => EmptyString
  | String c s' => String (ascii_lower c) (lower_str s')
  end.

(** One byte pair of the ASCII fast path of [EqualFold]. *)
Definition fold_byte (a b : ascii) : bool :=
  let sr := nat_of_ascii a in
  let tr := nat_of_ascii b in
  if (tr =? sr)%nat then true
  else
    let '(sr, tr) := if (tr <? sr)%nat then (tr, sr) else (sr, tr) in
    ((65 <=? sr) && (sr <=? 90) && (tr =? sr + 32))%nat.

Definition all_bytes : list ascii := map ascii_of_nat (seq 0 256).

Lemma in_all_bytes (a : ascii) : In a all_bytes.
Proof.
  unfold all_bytes. rewrite <- (ascii_nat_embedding a). apply in_map, in_seq.
  pose proof (nat_ascii_bounded a). lia.
Qed.

Lemma fold_byte_table :
  forallb (fun a => forallb (fun b =>
    implb ((nat_of_ascii a <? 128) && (nat_of_ascii b <? 128))%nat
      (Bool.eqb (fold_byte a b) (Ascii.eqb (ascii_lower a) (ascii_lower b))))
    all_bytes) all_bytes = true.
Proof. vm_compute. reflexivity. Qed.

Lemma fold_byte_lower (a b : ascii) :
  (nat_of_ascii a < 128)%nat -> (nat_of_ascii b < 128)%nat ->
  fold_byte a b = Ascii.eqb (ascii_lower a) (ascii_lower b).
Proof.
  intros Ha Hb. pose proof fold_byte_table as T.
  rewrite forallb_forall in T. specialize (T a (in_all_bytes a)).
  rewrite forallb_forall in T. specialize (T b (in_all_bytes b)).
  apply Nat.ltb_lt in Ha, Hb. rewrite Ha, Hb in T. simpl in T.
  apply Bool.eqb_prop in T. exact T.
Qed.

Lemma EqualFold_cons (L : GoLib) (a b : ascii) (s t : string) :
  EqualFold L (String a s) (String b t) =
  if ((128 <=? nat_of_ascii a) || (128 <=? nat_of_ascii b))%nat
  then fold_unicode L (String a s) (String b t)
  else if fold_byte a b then EqualFold L s t else false.
Proof.
  cbn [EqualFold]. unfold fold_byte.
  destruct (_ || _)%bool; [reflexivity |].
  destruct (nat_of_ascii b =? nat_of_ascii a)%nat; [reflexivity |].
  destruct (nat_of_ascii b <? nat_of_ascii a)%nat; reflexivity.
Qed.

(** On strings of ASCII bytes, [strings.EqualFold] (as used by [FindZoneID]
    and [FindRecordsByName] to match names) never reaches the Unicode
    comparison and holds exactly when the two lower-cased strings are
    equal. *)
Theorem EqualFold_ascii_lower (L : GoLib) (s t : string) :
  is_ascii_str s = true -> is_ascii_str t = true ->
  EqualFold L s t = String.eqb (lower_str s) (lower_str t).
Proof.
  revert t. induction s as [| a s IH]; intros [| b t] Hs Ht; try reflexivity.
  cbn [is_ascii_str] in Hs, Ht.
  apply andb_prop in Hs as [Ha Hs]. apply andb_prop in Ht as [Hb Ht].
  rewrite EqualFold_cons.
  apply Nat.ltb_lt in Ha, Hb.
  replace (128 <=? nat_of_ascii a)%nat with false by (symmetry; apply Nat.leb_gt; lia).
  replace (128 <=? nat_of_ascii b)%nat with false by (symmetry; apply Nat.leb_gt; lia).
  cbn [orb lower_str String.eqb].
  rewrite fold_byte_lower by assumption.
  destruct (Ascii.eqb (ascii_lower a) (ascii_lower b)); [apply IH; assumption | reflexivity].
Qed.

Lemma EqualFold_ascii_lower_witness :
  EqualFold example_lib "Zone-1.Example.COM" "zone-1.example.com" = true.
Proof.
  rewrite (EqualFold_ascii_lower example_lib "Zone-1.Example.COM" "zone-1.example.com")
    by reflexivity.
  vm_compute. reflexivity.
Defined.

